(** * Study-Tracker: the observation log of [main.py]

    [main.py] is a Streamlit script.  Every interaction re-executes it from
    the first line: it reloads [data.csv] into the table [df], runs the four
    tabs in order (daily input, analysis, study pathway, PDF export) and
    stops.  The development embeds that script as a function of the files of
    the working directory, the calendar date and the widget values, and proves
    the properties of the observation log on it.

    Numbers.  The two float columns hold the decimal numeral a float is
    printed as ([repr], in positional notation); arithmetic and comparisons
    are carried out on the rational it denotes, so binary64 rounding is not
    part of the model.  The two integer columns are [Z].

    Libraries.  pandas, scikit-learn, the text generator, the plotting and
    the PDF libraries are not part of [main.py].  [to_csv] and [read_csv]
    are modelled on the five typed columns; [LinearRegression] and
    [DecisionTreeClassifier] by the algorithm their default parameters
    select, on exact rationals; the random choices of the tree builder, the
    generated text, the progress computation and the bytes of the image and
    of the document are parameters. *)

From Stdlib Require Import ZArith NArith QArith Qminmax List String Ascii Bool Lia Lqa.
From Stdlib Require Import Decimal DecimalString DecimalPos DecimalZ Permutation.
From Stdlib Require Import FinFun Sorted.
Import ListNotations.

Set Implicit Arguments.
Close Scope Q_scope.
Open Scope Z_scope.

(* ================================================================= *)
(** ** Python values *)

Module Py.

Local Open Scope string_scope.

(** A Python [float], as the numeral [repr] prints: the digits before and
    after the point ([2.0], [7.5], [5.9]). *)
Record float := mkfloat { int_digits : Decimal.int; frac_digits : Decimal.uint }.

(** [repr(x)], the text [to_csv] writes for a float cell. *)
Definition float_repr (x : float) : string :=
  NilEmpty.string_of_int (int_digits x) ++ "." ++ NilEmpty.string_of_uint (frac_digits x).

(** Cut a string at the first occurrence of [c]. *)
Fixpoint cut (c : ascii) (s : string) : option (string * string) :=
  match s with
  | EmptyString => None
  | String a s' =>
      if Ascii.eqb a c then Some (EmptyString, s')
      else match cut c s' with
           | Some (l, r) => Some (String a l, r)
           | None => None
           end
  end.

Definition uint_eqb (a b : Decimal.uint) : bool :=
  if Decimal.uint_eq_dec a b then true else false.

(** The digits of an integer part as Python prints them: at least one, and
    no leading zero except for the single digit of 0. *)
Definition int_digits_ok (i : Decimal.int) : bool :=
  match i with
  | Pos d | Neg d => uint_eqb (Decimal.unorm d) d
  end.

(** The digits of a fractional part as Python prints them: at least one,
    and no trailing zero except for the single digit of [.0]. *)
Definition frac_digits_ok (f : Decimal.uint) : bool :=
  match f with
  | Nil => false
  | D0 Nil => true
  | _ => match Decimal.rev f with
         | D0 _ => false
         | _ => true
         end
  end.

(** The numerals [repr] can print. *)
Definition printable (x : float) : bool :=
  int_digits_ok (int_digits x) && frac_digits_ok (frac_digits x).

(** The float converter of [read_csv] on a positional numeral.  The model
    keeps the numerals [repr] prints; any other text is outside it. *)
Definition float_parse (s : string) : option float :=
  match cut "." s with
  | Some (i, f) =>
      match NilEmpty.int_of_string i, NilEmpty.uint_of_string f with
      | Some i', Some f' =>
          if printable (mkfloat i' f') then Some (mkfloat i' f') else None
      | _, _ => None
      end
  | None => None
  end.

(** The float a source literal denotes ([float_lit "5.9"]). *)
Definition float_lit (s : string) : float :=
  match float_parse s with
  | Some x => x
  | None => mkfloat (Pos Nil) Nil
  end.

(** The rational a float denotes. *)
Definition float_val (x : float) : Q :=
  let k := Z.of_nat (Decimal.nb_digits (frac_digits x)) in
  let mag (d : Decimal.uint) : Z := Z.of_uint d * 10 ^ k + Z.of_uint (frac_digits x) in
  match int_digits x with
  | Pos d => (inject_Z (mag d) / inject_Z (10 ^ k))%Q
  | Neg d => (- (inject_Z (mag d) / inject_Z (10 ^ k)))%Q
  end.

(** A Python [int] cell: [str(n)] and the integer converter of [read_csv]. *)
Definition int_repr (n : Z) : string := NilZero.string_of_int (Z.to_int n).

Definition int_parse (s : string) : option Z :=
  option_map Z.of_int (NilZero.int_of_string s).

(** [datetime.date]. *)
Record date := mkdate { year : N; month : N; day : N }.

(** The range of [datetime.date]: MINYEAR..MAXYEAR, a month, a day. *)
Definition date_ok (d : date) : bool :=
  ((1 <=? year d) && (year d <=? 9999) &&
   (1 <=? month d) && (month d <=? 12) &&
   (1 <=? day d) && (day d <=? 31))%N.

Definition digit (n : N) : ascii := ascii_of_N (48 + n mod 10).

Definition pad2 (n : N) : string :=
  String (digit (n / 10)) (String (digit n) EmptyString).

Definition pad4 (n : N) : string :=
  String (digit (n / 1000)) (String (digit (n / 100)) (pad2 n)).

(** [d.strftime('%Y-%m-%d')]: four digits of the year, two of the month,
    two of the day. *)
Definition strftime_Ymd (d : date) : string :=
  pad4 (year d) ++ "-" ++ pad2 (month d) ++ "-" ++ pad2 (day d).

Definition is_digit (a : ascii) : bool :=
  let n := N_of_ascii a in ((48 <=? n) && (n <=? 57))%N.

Definition digit_val (a : ascii) : N := N_of_ascii a - 48.

(** The shape YYYY-MM-DD: four digits, a dash, two digits, a dash, two
    digits, and nothing else. *)
Definition iso_shape (s : string) : bool :=
  match list_ascii_of_string s with
  | [y1; y2; y3; y4; d1; m1; m2; d2; a1; a2] =>
      is_digit y1 && is_digit y2 && is_digit y3 && is_digit y4 &&
      Ascii.eqb d1 "-" && is_digit m1 && is_digit m2 &&
      Ascii.eqb d2 "-" && is_digit a1 && is_digit a2
  | _ => false
  end.

(** Reading a YYYY-MM-DD string back as a date. *)
Definition read_Ymd (s : string) : option date :=
  if iso_shape s then
    match list_ascii_of_string s with
    | [y1; y2; y3; y4; _; m1; m2; _; a1; a2] =>
        Some (mkdate (digit_val y1 * 1000 + digit_val y2 * 100 + digit_val y3 * 10 + digit_val y4)
                     (digit_val m1 * 10 + digit_val m2)
                     (digit_val a1 * 10 + digit_val a2))%N
    | _ => None
    end
  else None.

End Py.


(* ================================================================= *)
(** ** The persisted table: five columns of a comma-separated file *)

Module Csv.

Local Open Scope string_scope.

Definition nl : ascii := "010"%char.
Definition cr : ascii := "013"%char.
Definition comma : ascii := ","%char.
Definition dquote : ascii := "034"%char.

(** The fields of [s] between occurrences of [c]. *)
Fixpoint split_on (c : ascii) (s : string) : list string :=
  match s with
  | EmptyString => [EmptyString]
  | String a s' =>
      if Ascii.eqb a c then EmptyString :: split_on c s'
      else match split_on c s' with
           | f :: fs => String a f :: fs
           | [] => [String a EmptyString]
           end
  end.

Fixpoint has_char (c : ascii) (s : string) : bool :=
  match s with
  | EmptyString => false
  | String a s' => Ascii.eqb a c || has_char c s'
  end.

(** One observation: a row of [df]. *)
Record Observation := mkobs {
  date : string;
  study_hours : Py.float;
  stress_level : Z;
  sleep_hours : Py.float;
  exercise_min : Z
}.

(** [df] between [read_csv] and the analysis tab: the five columns, rows in
    index order. *)
Definition DataFrame := list Observation.

Definition columns : list string :=
  ["date"; "study_hours"; "stress_level"; "sleep_hours"; "exercise_min"].

Definition join_cells (cells : list string) : string := String.concat "," cells.

Definition row_cells (o : Observation) : list string :=
  [date o; Py.float_repr (study_hours o); Py.int_repr (stress_level o);
   Py.float_repr (sleep_hours o); Py.int_repr (exercise_min o)].

(** The rows the script writes: a date of the shape YYYY-MM-DD and two
    printable floats. *)
Definition row_ok (o : Observation) : bool :=
  Py.iso_shape (date o) && Py.printable (study_hours o) && Py.printable (sleep_hours o).

Definition write_lines (ls : list string) : string :=
  String.concat "" (map (fun l => l ++ String nl "") ls).

(** [df.to_csv(path, index=False)]: the header line, then one line per row.
    Cells are written bare: no cell of a table this script builds holds a
    comma, a quote or a line break. *)
Definition to_csv (df : DataFrame) : string :=
  write_lines (join_cells columns :: map (fun o => join_cells (row_cells o)) df).

Inductive exn :=
| FileNotFoundError
| EmptyDataError
| ParserError
| NameError (name : string)
| LibraryError (what : string).

(** What [pd.read_csv] makes of a text: the five typed columns, an
    exception, or a frame with other columns or other cell types, which
    this development does not follow. *)
Inductive read_result :=
| Frame (df : DataFrame)
| ReadError (e : exn)
| Untyped.

(** Blank lines are skipped ([skip_blank_lines=True]). *)
Definition read_lines (txt : string) : list string :=
  filter (fun l => negb (String.eqb l "")) (split_on nl txt).

Definition parse_row (line : string) : option Observation :=
  match split_on comma line with
  | [d; a; b; c; e] =>
      match Py.iso_shape d, Py.float_parse a, Py.int_parse b, Py.float_parse c, Py.int_parse e with
      | true, Some a', Some b', Some c', Some e' => Some (mkobs d a' b' c' e')
      | _, _, _, _, _ => None
      end
  | _ => None
  end.

Fixpoint parse_rows (ls : list string) : option DataFrame :=
  match ls with
  | [] => Some []
  | l :: ls' =>
      match parse_row l, parse_rows ls' with
      | Some o, Some df => Some (o :: df)
      | _, _ => None
      end
  end.

Definition n_fields (line : string) : nat := List.length (split_on comma line).

(** The tokenizer pads short lines and rejects a line longer than the ones
    before it ("Expected k fields in line n, saw m"); the line next to the
    header is exempt (its extra leading cell would be the index). *)
Definition too_many_fields (header : string) (body : list string) : bool :=
  match body with
  | [] => false
  | first :: rest =>
      let expected := Nat.max (n_fields header) (n_fields first) in
      existsb (fun l => Nat.ltb expected (n_fields l)) rest
  end.

Definition list_string_eqb (a b : list string) : bool :=
  if list_eq_dec string_dec a b then true else false.

(** [pd.read_csv] on the text of a file. *)
Definition read_csv (txt : string) : read_result :=
  if has_char dquote txt || has_char cr txt then Untyped
  else
    match read_lines txt with
    | [] => ReadError EmptyDataError
    | header :: body =>
        if too_many_fields header body then ReadError ParserError
        else if list_string_eqb (split_on comma header) columns then
          match parse_rows body with
          | Some df => Frame df
          | None => Untyped
          end
        else Untyped
    end.

End Csv.

(* ================================================================= *)
(** ** The two estimators the analysis tab fits *)

Module Sklearn.

Local Open Scope Q_scope.

Definition Qlt_bool (a b : Q) : bool := negb (Qle_bool b a).

Definition qsum (l : list Q) : Q := fold_right Qplus 0 l.

Definition mean (l : list Q) : Q := qsum l / inject_Z (Z.of_nat (List.length l)).

(** *** [LinearRegression] on one feature

    [fit] centres [X] and [y] on their means, solves the least-squares
    problem on the centred data (the minimum-norm solution: coefficient 0
    when the feature does not vary) and sets the intercept from the
    means. *)
Record linear_model := mklinear { coef_ : Q; intercept_ : Q }.

Definition centred_sq (xm : Q) (X : list Q) : Q :=
  qsum (map (fun x => (x - xm) * (x - xm)) X).

Definition centred_cross (xm ym : Q) (X y : list Q) : Q :=
  qsum (map (fun p => (fst p - xm) * (snd p - ym)) (combine X y)).

Definition LinearRegression_fit (X y : list Q) : linear_model :=
  let xm := mean X in
  let ym := mean y in
  let sxx := centred_sq xm X in
  let sxy := centred_cross xm ym X y in
  let coef := if Qeq_bool sxx 0 then 0 else sxy / sxx in
  mklinear coef (ym - xm * coef).

Definition linear_predict (m : linear_model) (x : Q) : Q :=
  x * coef_ m + intercept_ m.

(** The sum of squared residuals of the line [a + b x] on the data: what
    ordinary least squares minimises. *)
Definition sq_residuals (a b : Q) (X y : list Q) : Q :=
  qsum (map (fun p => (snd p - (a + b * fst p)) * (snd p - (a + b * fst p))) (combine X y)).

(** *** [DecisionTreeClassifier] with its default parameters

    Gini criterion, best splitter, no depth limit, [min_samples_split=2],
    [min_samples_leaf=1], [min_impurity_decrease=0], all features tried at
    every node.  The splitter visits the features in a random order and
    keeps the first split of strictly greatest improvement; the order is
    the parameter [draw].  Feature values are compared as they are
    (scikit-learn rounds them to single precision first). *)

Definition sample := (list Q * Z)%type.

Inductive tree :=
| Leaf (value : list nat)
| Node (feature : nat) (threshold : Q) (left right : tree).

Record tree_model := mktree { classes_ : list Z; tree_ : tree }.

Fixpoint insert_Z (x : Z) (l : list Z) : list Z :=
  match l with
  | [] => [x]
  | y :: l' => if (x <=? y)%Z then x :: l else y :: insert_Z x l'
  end.

Definition sort_Z (l : list Z) : list Z := fold_right insert_Z [] l.

Fixpoint insert_Q (x : Q) (l : list Q) : list Q :=
  match l with
  | [] => [x]
  | y :: l' => if Qle_bool x y then x :: l else y :: insert_Q x l'
  end.

Definition sort_Q (l : list Q) : list Q := fold_right insert_Q [] l.

(** [np.unique(y)]. *)
Definition unique (y : list Z) : list Z := sort_Z (nodup Z.eq_dec y).

Definition class_counts (classes : list Z) (S : list sample) : list nat :=
  map (fun c => List.length (filter (fun s => Z.eqb (snd s) c) S)) classes.

Definition total (counts : list nat) : nat := fold_right Nat.add 0%nat counts.

Definition qnat (n : nat) : Q := inject_Z (Z.of_nat n).

Definition gini (counts : list nat) : Q :=
  1 - qsum (map (fun c => (qnat c / qnat (total counts)) * (qnat c / qnat (total counts))) counts).

(** Machine epsilon of a double: a node of impurity at most [EPSILON] is a
    leaf. *)
Definition EPSILON : Q := 1 # (2 ^ 52).

(** Feature values closer than this are not split apart. *)
Definition FEATURE_THRESHOLD : Q := 1 # 10000000.

Definition feat (f : nat) (s : sample) : Q := nth f (fst s) 0.

Definition goes_left (f : nat) (thr : Q) (x : list Q) : bool :=
  Qle_bool (nth f x 0) thr.

Definition left_part (f : nat) (thr : Q) (S : list sample) : list sample :=
  filter (fun s => goes_left f thr (fst s)) S.

Definition right_part (f : nat) (thr : Q) (S : list sample) : list sample :=
  filter (fun s => negb (goes_left f thr (fst s))) S.

(** Midpoints between consecutive sorted values that differ by more than
    [FEATURE_THRESHOLD]. *)
Fixpoint midpoints (vals : list Q) : list Q :=
  match vals with
  | a :: ((b :: _) as rest) =>
      if Qle_bool b (a + FEATURE_THRESHOLD) then midpoints rest
      else (a / 2 + b / 2) :: midpoints rest
  | _ => []
  end.

(** The splits of feature [f] that leave at least [min_samples_leaf = 1]
    sample on each side, by increasing threshold. *)
Definition candidates (f : nat) (S : list sample) : list (nat * Q) :=
  filter (fun c => (1 <=? List.length (left_part (fst c) (snd c) S))%nat &&
                   (1 <=? List.length (right_part (fst c) (snd c) S))%nat)
         (map (fun thr => (f, thr)) (midpoints (sort_Q (map (feat f) S)))).

(** The quantity the Gini criterion maximises over splits; it orders the
    splits as the impurity decrease does. *)
Definition proxy_improvement (classes : list Z) (S : list sample) (c : nat * Q) : Q :=
  let l := class_counts classes (left_part (fst c) (snd c) S) in
  let r := class_counts classes (right_part (fst c) (snd c) S) in
  - (qnat (total l) * gini l) - (qnat (total r) * gini r).

(** The first candidate of strictly greatest improvement. *)
Fixpoint best_of (score : nat * Q -> Q) (best : option (nat * Q)) (cs : list (nat * Q))
  : option (nat * Q) :=
  match cs with
  | [] => best
  | c :: cs' =>
      match best with
      | None => best_of score (Some c) cs'
      | Some b => if Qlt_bool (score b) (score c) then best_of score (Some c) cs'
                  else best_of score best cs'
      end
  end.

Definition node_split (order : list nat) (classes : list Z) (S : list sample)
  : option (nat * Q) :=
  best_of (proxy_improvement classes S) None (flat_map (fun f => candidates f S) order).

Section Build.

(** The order in which the features are visited at a node. *)
Variable draw : list sample -> list nat.

(** The depth-first builder.  A node with fewer than two samples, or
    pure, or without a split is a leaf holding its class counts;
    otherwise the best split divides it.  A split never decreases the
    Gini impurity by less than 0, so [min_impurity_decrease] stops
    nothing.  [fuel] bounds the depth; [None] means it ran out. *)
Fixpoint build (fuel : nat) (classes : list Z) (S : list sample) : option tree :=
  let value := class_counts classes S in
  if (List.length S <? 2)%nat || Qle_bool (gini value) EPSILON then Some (Leaf value)
  else
    match node_split (draw S) classes S with
    | None => Some (Leaf value)
    | Some (f, thr) =>
        match fuel with
        | O => None
        | Datatypes.S fuel' =>
            match build fuel' classes (left_part f thr S),
                  build fuel' classes (right_part f thr S) with
            | Some l, Some r => Some (Node f thr l r)
            | _, _ => None
            end
        end
    end.

(** [DecisionTreeClassifier().fit(X, y)]. *)
Definition DecisionTreeClassifier_fit (X : list (list Q)) (y : list Z) : option tree_model :=
  let S := combine X y in
  match build (List.length S) (unique y) S with
  | Some t => Some (mktree (unique y) t)
  | None => None
  end.

End Build.

Fixpoint apply_tree (t : tree) (x : list Q) : list nat :=
  match t with
  | Leaf value => value
  | Node f thr l r => if goes_left f thr x then apply_tree l x else apply_tree r x
  end.

(** [np.argmax]: the index of the first greatest entry. *)
Fixpoint argmax_from (i best_i best : nat) (l : list nat) : nat :=
  match l with
  | [] => best_i
  | c :: l' => if (best <? c)%nat then argmax_from (S i) i c l'
               else argmax_from (S i) best_i best l'
  end.

Definition argmax (l : list nat) : nat :=
  match l with
  | [] => O
  | c :: l' => argmax_from 1 0 c l'
  end.

(** [tree.predict([x])[0]]. *)
Definition tree_predict (m : tree_model) (x : list Q) : Z :=
  nth (argmax (apply_tree (tree_ m) x)) (classes_ m) 0%Z.

End Sklearn.

(* ================================================================= *)
(** ** The script *)

Module App.

Import Csv.
Local Open Scope string_scope.

Definition DATA_FILE : string := "data.csv".

(** The names bound at module level when the tabs run: the imports, the
    assignments before the tabs and the widget results. *)
Definition module_names : list string :=
  ["st"; "pd"; "np"; "os"; "random"; "datetime"; "LinearRegression";
   "DecisionTreeClassifier"; "train_test_split"; "accuracy_score"; "px";
   "pipeline"; "canvas"; "letter"; "DATA_FILE"; "df"; "generator"; "col1";
   "col2"; "quotes"; "tab1"; "tab2"; "tab3"; "tab4"; "study_hours";
   "stress_level"; "sleep_hours"; "exercise_min"; "submitted"; "exam";
   "days_left"; "strong_subjects"; "weak_subjects"].

Definition name_bound (name : string) : bool :=
  existsb (String.eqb name) module_names.

Inductive figure :=
| px_line (x : list string) (y : list Z) (title : string)
| px_scatter_ols (x : list Q) (y : list Z) (title : string).

(** What a run puts on the page. *)
Inductive ui :=
| st_header (s : string)
| st_success (s : string)
| st_warning (s : string)
| st_write (s : string)
| st_write_pred_stress (pred_stress : Q)
| st_plotly_chart (fig : figure)
| st_text_area (label value : string)
| st_progress (value : Q)
| st_write_progress (progress : Q)
| st_download_button (label data file_name : string).

(** The files of the working directory and the page built so far. *)
Record world := mkworld { files : string -> option string; screen : list ui }.

Inductive outcome (A : Type) :=
| Done (a : A)
| Raised (e : exn)
| OutOfModel.
Arguments Raised {A} e.
Arguments OutOfModel {A}.

Definition script (A : Type) := world -> outcome A * world.

Definition ret {A} (a : A) : script A := fun w => (Done a, w).

Definition bind {A B} (c : script A) (k : A -> script B) : script B :=
  fun w => match c w with
           | (Done a, w') => k a w'
           | (Raised e, w') => (Raised e, w')
           | (OutOfModel, w') => (OutOfModel, w')
           end.

Definition raise {A} (e : exn) : script A := fun w => (Raised e, w).

(** [try: c  except: handler]. *)
Definition try_except {A} (c : script A) (handler : exn -> script A) : script A :=
  fun w => match c w with
           | (Raised e, w') => handler e w'
           | r => r
           end.

Definition emit (u : ui) : script unit :=
  fun w => (Done tt, mkworld (files w) (screen w ++ [u])%list).

Definition write_file (path content : string) : script unit :=
  fun w => (Done tt,
            mkworld (fun p => if String.eqb p path then Some content else files w p)
                    (screen w)).

Notation "x <- c ;; k" := (bind c (fun x => k))
  (at level 61, c at next level, right associativity).
Notation "c ;; k" := (bind c (fun _ => k))
  (at level 61, right associativity).

Definition pd_read_csv (path : string) : script DataFrame :=
  fun w => match files w path with
           | None => (Raised FileNotFoundError, w)
           | Some txt =>
               match read_csv txt with
               | Frame df => (Done df, w)
               | ReadError e => (Raised e, w)
               | Untyped => (OutOfModel, w)
               end
           end.

Definition df_to_csv (df : DataFrame) (path : string) : script unit :=
  write_file path (to_csv df).

(** Lines 18-22: load or initialise the data. *)
Definition load : script DataFrame :=
  try_except (pd_read_csv DATA_FILE)
    (fun e => match e with
              | FileNotFoundError => df_to_csv [] DATA_FILE ;; ret []
              | _ => raise e
              end).

(** The widget values of a run, and which button started it. *)
Record widgets := mkwidgets {
  w_study_hours : Py.float;
  w_stress_level : Z;
  w_sleep_hours : Py.float;
  w_exercise_min : Z;
  w_submitted : bool;
  w_exam : string;
  w_days_left : Z;
  w_strong_subjects : string;
  w_weak_subjects : string;
  w_generate_plan : bool;
  w_generate_pdf : bool
}.

(** What the input widgets can deliver: floats between 0.0 and 24.0, the
    slider between 1 and 10, non-negative minutes, at least one day. *)
Definition widgets_ok (w : widgets) : bool :=
  Py.printable (w_study_hours w) &&
  Qle_bool 0 (Py.float_val (w_study_hours w)) &&
  Qle_bool (Py.float_val (w_study_hours w)) 24 &&
  (1 <=? w_stress_level w)%Z && (w_stress_level w <=? 10)%Z &&
  Py.printable (w_sleep_hours w) &&
  Qle_bool 0 (Py.float_val (w_sleep_hours w)) &&
  Qle_bool (Py.float_val (w_sleep_hours w)) 24 &&
  (0 <=? w_exercise_min w)%Z &&
  (1 <=? w_days_left w)%Z.

(** Lines 54-60: the row of a submission. *)
Definition new_data (today : Py.date) (w : widgets) : Observation :=
  mkobs (Py.strftime_Ymd today) (w_study_hours w) (w_stress_level w)
        (w_sleep_hours w) (w_exercise_min w).

(** Lines 45-63: the daily input tab. *)
Definition tab1 (today : Py.date) (w : widgets) (df : DataFrame) : script DataFrame :=
  emit (st_header "Daily Input") ;;
  if w_submitted w then
    let df := (df ++ [new_data today w])%list in
    df_to_csv df DATA_FILE ;;
    emit (st_success "Data saved! Check Analysis tab for insights.") ;;
    ret df
  else ret df.

(** Line 78: [np.where((sleep_hours < 6) & (stress_level > 7), 1, 0)] on one
    row. *)
Definition burnout_rule (sleep_hours stress_level : Q) : Z :=
  if Sklearn.Qlt_bool sleep_hours 6 && Sklearn.Qlt_bool 7 stress_level then 1 else 0.

Definition burnout_risk (df : DataFrame) : list Z :=
  map (fun o => burnout_rule (Py.float_val (sleep_hours o)) (inject_Z (stress_level o))) df.

(** [df] after the analysis tab: line 78 adds the column [burnout_risk]
    when it runs. *)
Record AnalysedFrame := mkanalysed {
  rows : DataFrame;
  burnout_risk_column : option (list Z)
}.

(** Lines 71-74. *)
Definition pred_stress (df : DataFrame) : Q :=
  let X := map (fun o => Py.float_val (study_hours o)) df in
  let y := map (fun o => inject_Z (stress_level o)) df in
  let reg := Sklearn.LinearRegression_fit X y in
  Sklearn.linear_predict reg 10.

Definition X_tree (df : DataFrame) : list (list Q) :=
  map (fun o => [Py.float_val (sleep_hours o); inject_Z (stress_level o);
                 Py.float_val (study_hours o)]) df.

Definition burnout_message (risk : Z) : string :=
  "Burnout Risk Today: " ++ (if Z.eqb risk 0 then "Low. Keep going!" else "High! Rest up.").

(** [f"Days {a}-{b}: "]. *)
Definition days (a b : Z) : string :=
  "Days " ++ Py.int_repr a ++ "-" ++ Py.int_repr b ++ ": ".

Definition nls : string := String nl "".

(** Lines 102-107: the schedule of the plan. *)
Definition plan (w : widgets) : string :=
  let days_left := w_days_left w in
  let phases := days_left / 4 in
  "Personalized " ++ Py.int_repr days_left ++ "-Day Plan for " ++ w_exam w ++ ":" ++ nls
  ++ days 1 phases ++ "Focus on strong subjects (" ++ w_strong_subjects w
       ++ ") + Basics & PYQs" ++ nls
  ++ days (phases + 1) (2 * phases) ++ "Tackle weak subjects (" ++ w_weak_subjects w
       ++ ") + Drills" ++ nls
  ++ days (2 * phases + 1) (3 * phases) ++ "Mixed mocks + Review" ++ nls
  ++ days (3 * phases + 1) days_left ++ "Full revision + Rest" ++ nls.

Definition prompt (w : widgets) : string :=
  "Generate 3 short wellness tips for a student studying " ++ Py.int_repr (w_days_left w)
  ++ " days for Olympiad, focusing on stress and health.".

(** The schedule in the words of the specification: the phase length is
    the day count divided by four, rounded down; the phases run over days
    1 to p, p+1 to 2p, 2p+1 to 3p and 3p+1 to the last day. *)
Definition spec_phases (days_left : Z) : list (Z * Z) :=
  let p := days_left / 4 in
  [(1, p); (p + 1, 2 * p); (2 * p + 1, 3 * p); (3 * p + 1, days_left)].

Definition phase_line (bounds : Z * Z) (what : string) : string :=
  days (fst bounds) (snd bounds) ++ what ++ nls.

Definition phase_days (bounds : Z * Z) : Z := snd bounds - fst bounds + 1.

(** A script that leaves the data file as it found it. *)
Definition keeps_data {A} (c : script A) : Prop :=
  forall w, files (snd (c w)) DATA_FILE = files w DATA_FILE.

(** The data file holds the table [df]; the empty table may also be an
    absent file. *)
Definition holds (fs : string -> option string) (df : DataFrame) : Prop :=
  (fs DATA_FILE = Some (to_csv df) \/ (df = [] /\ fs DATA_FILE = None)) /\
  Forall (fun o => row_ok o = true) df.

(** The rows a sequence of runs submits, in the order of the runs. *)
Definition appended (events : list (Py.date * widgets)) : DataFrame :=
  map (fun e => new_data (fst e) (snd e)) (filter (fun e => w_submitted (snd e)) events).

(** The two-row log of the end-to-end scenario and the inputs of its
    day. *)
Definition scenario_log (day1 day2 : string) : DataFrame :=
  [mkobs day1 (Py.float_lit "2.0") 3 (Py.float_lit "8.0") 20;
   mkobs day2 (Py.float_lit "8.0") 9 (Py.float_lit "4.0") 0].

Definition scenario_today (w : widgets) : widgets :=
  mkwidgets (Py.float_lit "8.0") 9 (Py.float_lit "4.0") (w_exercise_min w) (w_submitted w)
            (w_exam w) (w_days_left w) (w_strong_subjects w) (w_weak_subjects w)
            (w_generate_plan w) (w_generate_pdf w).

(** Worked inputs: two days of widget values, and collaborators that
    visit the features in column order, return a fixed tip, fail on the
    progress line and write fixed bytes. *)
Definition day1_inputs : widgets :=
  mkwidgets (Py.float_lit "2.0") 3 (Py.float_lit "8.0") 20 true
            "IOQM" 20 "Algebra,Geometry" "Number Theory" false false.

Definition day2_inputs : widgets :=
  mkwidgets (Py.float_lit "8.0") 9 (Py.float_lit "4.0") 0 true
            "IOQM" 20 "Algebra,Geometry" "Number Theory" false false.

Definition in_column_order : list Sklearn.sample -> list nat :=
  fun _ => [0; 1; 2]%nat.

Definition fixed_tip : string -> string + exn := fun _ => inl "Sleep well.".

Definition failing_progress : Py.date -> list string -> Z -> Q + exn :=
  fun _ _ _ => inr (LibraryError "TypeError").

Definition fixed_png : list string -> list Z -> string := fun _ _ => "PNG".

Definition fixed_pdf : nat -> string -> string := fun _ _ => "PDF".

(** A data file whose third row has a sixth cell. *)
Definition long_row_file : string :=
  to_csv (scenario_log "2026-11-03" "2026-11-04") ++ "2026-11-05,1.0,2,7.5,10,11" ++ nls.

(** The operations on the log and its collaborators. *)
Inductive operation :=
| op_load
| op_append
| op_analysis
| op_plan
| op_export.

Section Run.

(** The order in which the tree builder visits the features at a node. *)
Variable draw : list Sklearn.sample -> list nat.

(** The text generator: the generated text, or the exception it raises. *)
Variable generator : string -> string + exn.

(** Line 118, a date minus a pandas timestamp, divided by the day count
    and scaled: its value, or the exception it raises. *)
Variable progress_of : Py.date -> list string -> Z -> Q + exn.

(** The image [plt.savefig] would write and the document [c.save()]
    would write. *)
Variable savefig : list string -> list Z -> string.
Variable canvas_save : nat -> string -> string.

Definition lift {A} (r : A + exn) : script A :=
  match r with
  | inl a => ret a
  | inr e => raise e
  end.

(** Lines 79-83: the value of [risk], when line 83 runs. *)
Definition risk_today (w : widgets) (df : DataFrame) : script (option Z) :=
  let y_tree := burnout_risk df in
  if (1 <? List.length (nodup Z.eq_dec y_tree))%nat then
    match Sklearn.DecisionTreeClassifier_fit draw (X_tree df) y_tree with
    | Some tree =>
        ret (Some (Sklearn.tree_predict tree
                     [Py.float_val (w_sleep_hours w); inject_Z (w_stress_level w);
                      Py.float_val (w_study_hours w)]))
    | None => fun w => (OutOfModel, w)
    end
  else ret None.

(** Lines 65-91: the analysis tab. *)
Definition tab2 (w : widgets) (df : DataFrame) : script AnalysedFrame :=
  emit (st_header "Analysis & Insights") ;;
  if (List.length df <? 2)%nat then
    emit (st_warning "Enter at least 2 days of data for analysis.") ;;
    ret (mkanalysed df None)
  else
    emit (st_write_pred_stress (pred_stress df)) ;;
    risk <- risk_today w df ;;
    match risk with
    | Some risk => emit (st_write (burnout_message risk))
    | None => ret tt
    end ;;
    emit (st_plotly_chart (px_line (map date df) (map stress_level df) "Stress Over Time")) ;;
    emit (st_plotly_chart
            (px_scatter_ols (map (fun o => Py.float_val (study_hours o)) df)
                            (map stress_level df) "Stress vs Study Hours")) ;;
    ret (mkanalysed df (Some (burnout_risk df))).

(** Lines 93-122: the study pathway tab. *)
Definition tab3 (today : Py.date) (w : widgets) (df : AnalysedFrame) : script unit :=
  emit (st_header "Study Pathway Generator") ;;
  if w_generate_plan w then
    tips <- lift (generator (prompt w)) ;;
    emit (st_text_area "Your Plan" (plan w ++ nls ++ "Health Reminders:" ++ nls ++ tips)) ;;
    if (0 <? List.length (rows df))%nat then
      progress <- lift (progress_of today (map date (rows df)) (w_days_left w)) ;;
      emit (st_progress (Qmin ((progress / 100)%Q) 1)) ;;
      emit (st_write_progress progress)
    else emit (st_write "No data available for progress tracking.")
  else ret tt.

(** Lines 127-141, given whether the name [plt] is bound. *)
Definition export_pdf (plt_bound : bool) (df : AnalysedFrame) : script unit :=
  let pdf_file := "report.pdf" in
  if plt_bound then
    let png := savefig (map date (rows df)) (map stress_level (rows df)) in
    write_file "stress.png" png ;;
    write_file pdf_file (canvas_save (List.length (rows df)) png) ;;
    emit (st_download_button "Download PDF" (canvas_save (List.length (rows df)) png) pdf_file) ;;
    emit (st_success "PDF ready!")
  else raise (NameError "plt").

(** Lines 124-141: the export tab. *)
Definition tab4 (w : widgets) (df : AnalysedFrame) : script unit :=
  emit (st_header "Export Report as PDF") ;;
  if w_generate_pdf w then export_pdf (name_bound "plt") df
  else ret tt.

Definition exec (op : operation) (today : Py.date) (w : widgets) (df : AnalysedFrame)
  : script unit :=
  match op with
  | op_load => load ;; ret tt
  | op_append => tab1 today w (rows df) ;; ret tt
  | op_analysis => tab2 w (rows df) ;; ret tt
  | op_plan => tab3 today w df
  | op_export => tab4 w df
  end.

(** An operation writes the data file when some call of it leaves the
    file different from what it was. *)
Definition writes_data (op : operation) : Prop :=
  exists today w df world,
    files (snd (exec op today w df world)) DATA_FILE <> files world DATA_FILE.

(** One run of the script, from the reload of the data to the last tab.
    Lines 24-43 (the text generator, the title, the two icons, the quote
    and the tab bar) come between the reload and the first tab; they
    read neither [df] nor the data file and are taken to succeed. *)
Definition run (today : Py.date) (w : widgets) : script unit :=
  df <- load ;;
  df <- tab1 today w df ;;
  df <- tab2 w df ;;
  tab3 today w df ;;
  tab4 w df.

(** The runs of a session, one after the other, on the files the one
    before left; the page is rebuilt by every run. *)
Fixpoint session (events : list (Py.date * widgets)) (fs : string -> option string)
  : string -> option string :=
  match events with
  | [] => fs
  | (today, w) :: events' =>
      session events' (files (snd (run today w (mkworld fs []))))
  end.

End Run.

End App.

(* ================================================================= *)
(** ** Further notions about the log, the plan and the training rows *)

Module Log.

Import Csv App.
Local Open Scope string_scope.

(** The data file reads as the table [df]: [read_csv] returns [df] on its
    text, or it is absent and [df] is empty. *)
Definition reads_as (fs : string -> option string) (df : DataFrame) : Prop :=
  (fs DATA_FILE = None /\ df = []) \/
  (exists txt, fs DATA_FILE = Some txt /\ read_csv txt = Frame df).

(** A script that leaves every file but the data file as it found it. *)
Definition writes_only_data {A} (c : script A) : Prop :=
  forall w path, path <> DATA_FILE -> files (snd (c w)) path = files w path.

(** [n] consecutive days from day [a]. *)
Definition days_from (a : Z) (n : nat) : list Z :=
  map (fun i => a + Z.of_nat i) (seq 0 n).

(** The days of a phase "Days a-b": none when [b] is below [a]. *)
Definition phase_range (bounds : Z * Z) : list Z :=
  days_from (fst bounds) (Z.to_nat (snd bounds - fst bounds + 1)).

(** The row of [X_tree] of one observation (line 79) and the row line 83
    predicts on. *)
Definition features (o : Observation) : list Q :=
  [Py.float_val (sleep_hours o); inject_Z (stress_level o); Py.float_val (study_hours o)].

Definition today_features (w : widgets) : list Q :=
  [Py.float_val (w_sleep_hours w); inject_Z (w_stress_level w);
   Py.float_val (w_study_hours w)].

(** The training sample of a row: its features and its label (lines
    78-80). *)
Definition labelled (o : Observation) : Sklearn.sample :=
  (features o,
   burnout_rule (Py.float_val (sleep_hours o)) (inject_Z (stress_level o))).

(** The samples of class [c] at a node. *)
Definition count (c : Z) (S : list Sklearn.sample) : nat :=
  List.length (filter (fun s => Z.eqb (snd s) c) S).

(** Two values of a feature that the splitter can tell apart, or that are
    equal. *)
Definition separated (a b : Q) : bool :=
  Qeq_bool a b
  || Sklearn.Qlt_bool (a + Sklearn.FEATURE_THRESHOLD) b
  || Sklearn.Qlt_bool (b + Sklearn.FEATURE_THRESHOLD) a.

(** No two rows of the log have values of a feature that differ by
    [FEATURE_THRESHOLD] or less without being equal. *)
Definition well_separated (df : DataFrame) : bool :=
  forallb (fun o1 =>
    forallb (fun o2 =>
      forallb (fun f => separated (nth f (features o1) 0%Q) (nth f (features o2) 0%Q))
              [0; 1; 2]%nat) df) df.

(** A hand-written data file: a blank line after the header, and a stress
    level written with a leading zero. *)
Definition hand_written_file : string :=
  "date,study_hours,stress_level,sleep_hours,exercise_min" ++ nls ++ nls
  ++ "2026-11-03,2.0,03,8.0,20" ++ nls.

End Log.


(* ================================================================= *)
(** * Properties *)

(** ** Cells: numerals and dates survive the write and the read *)

Module CellFacts.

Import Csv.
Local Open Scope string_scope.

Lemma has_char_app c a b :
  has_char c (a ++ b) = has_char c a || has_char c b.
Proof.
  induction a as [|x a IH]; cbn [has_char append]; [reflexivity|].
  now rewrite IH, orb_assoc.
Qed.

Lemma digit_not c a :
  Py.is_digit c = false -> Py.is_digit a = true -> Ascii.eqb a c = false.
Proof.
  intros Hc Ha. destruct (Ascii.eqb_spec a c) as [->|]; congruence.
Qed.

Lemma uint_no_char c d :
  Py.is_digit c = false -> has_char c (NilEmpty.string_of_uint d) = false.
Proof.
  intros Hc.
  induction d; cbn [has_char NilEmpty.string_of_uint]; rewrite ?IHd;
    try reflexivity; rewrite digit_not; auto.
Qed.

Lemma int_no_char c i :
  Py.is_digit c = false -> c <> "-"%char ->
  has_char c (NilEmpty.string_of_int i) = false.
Proof.
  intros Hc Hm.
  destruct i; cbn [has_char NilEmpty.string_of_int]; rewrite ?uint_no_char; auto.
  destruct (Ascii.eqb_spec "-"%char c); [congruence | reflexivity].
Qed.

Lemma nilzero_uint_no_char c d :
  Py.is_digit c = false -> has_char c (NilZero.string_of_uint d) = false.
Proof.
  intros Hc. destruct d; try apply uint_no_char; auto.
  cbn [has_char NilZero.string_of_uint]. rewrite digit_not; auto.
Qed.

Lemma int_repr_no_char c n :
  Py.is_digit c = false -> c <> "-"%char -> has_char c (Py.int_repr n) = false.
Proof.
  intros Hc Hm. unfold Py.int_repr.
  destruct (Z.to_int n); cbn [has_char NilZero.string_of_int];
    rewrite ?nilzero_uint_no_char; auto.
  destruct (Ascii.eqb_spec "-"%char c); [congruence | reflexivity].
Qed.

Lemma float_repr_no_char c x :
  Py.is_digit c = false -> c <> "-"%char -> c <> "."%char ->
  has_char c (Py.float_repr x) = false.
Proof.
  intros Hc Hm Hp. unfold Py.float_repr.
  rewrite !has_char_app, int_no_char, uint_no_char by assumption.
  cbn [has_char orb]. destruct (Ascii.eqb_spec "."%char c); [congruence | reflexivity].
Qed.

Lemma cut_app c a b :
  has_char c a = false -> Py.cut c (a ++ String c b) = Some (a, b).
Proof.
  induction a as [|x a IH]; cbn [has_char Py.cut append].
  - now rewrite Ascii.eqb_refl.
  - intros H. apply orb_false_iff in H as [Hx Ha].
    now rewrite Hx, IH.
Qed.

Lemma float_parse_repr x :
  Py.printable x = true -> Py.float_parse (Py.float_repr x) = Some x.
Proof.
  intros Hx. unfold Py.float_parse, Py.float_repr.
  change ("." ++ NilEmpty.string_of_uint (Py.frac_digits x))
    with (String "."%char (NilEmpty.string_of_uint (Py.frac_digits x))).
  rewrite cut_app.
  - rewrite NilEmpty.isi, NilEmpty.usu. destruct x as [i f]; simpl in *.
    now rewrite Hx.
  - destruct (Py.int_digits x); simpl; rewrite ?uint_no_char; auto.
Qed.

Lemma to_uint_nonnil p : Pos.to_uint p <> Nil.
Proof.
  intros H. pose proof (DecimalPos.Unsigned.of_to p) as E.
  rewrite H in E. discriminate.
Qed.

Lemma int_parse_repr n : Py.int_parse (Py.int_repr n) = Some n.
Proof.
  unfold Py.int_parse, Py.int_repr.
  rewrite NilZero.isi.
  - simpl. now rewrite DecimalZ.of_to.
  - destruct n; simpl; try discriminate.
    intros [= H]. now apply to_uint_nonnil in H.
  - destruct n; simpl; try discriminate.
    intros [= H]. now apply to_uint_nonnil in H.
Qed.

Lemma is_digit_digit n : Py.is_digit (Py.digit n) = true.
Proof.
  unfold Py.is_digit, Py.digit.
  pose proof (N.mod_upper_bound n 10 ltac:(discriminate)) as Hlt.
  generalize dependent (n mod 10)%N. intros r Hlt.
  rewrite N_ascii_embedding by lia.
  apply andb_true_iff; split; apply N.leb_le; lia.
Qed.

Lemma digit_val_digit n : Py.digit_val (Py.digit n) = (n mod 10)%N.
Proof.
  unfold Py.digit_val, Py.digit.
  pose proof (N.mod_upper_bound n 10 ltac:(discriminate)) as Hlt.
  generalize dependent (n mod 10)%N. intros r Hlt.
  rewrite N_ascii_embedding by lia. lia.
Qed.

Lemma digit_not_dash n : Ascii.eqb (Py.digit n) "-" = false.
Proof.
  apply digit_not; [reflexivity | apply is_digit_digit].
Qed.

Lemma digits4 y :
  (y <= 9999 ->
   (y / 1000) mod 10 * 1000 + (y / 100) mod 10 * 100 + (y / 10) mod 10 * 10 + y mod 10 = y)%N.
Proof.
  intros H. zify. Z.to_euclidean_division_equations. lia.
Qed.

Lemma digits2 m : (m <= 99 -> (m / 10) mod 10 * 10 + m mod 10 = m)%N.
Proof.
  intros H. zify. Z.to_euclidean_division_equations. lia.
Qed.

Lemma iso_shape_strftime d : Py.iso_shape (Py.strftime_Ymd d) = true.
Proof.
  unfold Py.iso_shape, Py.strftime_Ymd, Py.pad4, Py.pad2. cbn -[Py.digit Py.is_digit N.div].
  now rewrite !is_digit_digit.
Qed.

Lemma read_Ymd_strftime d :
  Py.date_ok d = true -> Py.read_Ymd (Py.strftime_Ymd d) = Some d.
Proof.
  intros Hd. unfold Py.read_Ymd. rewrite iso_shape_strftime.
  unfold Py.strftime_Ymd, Py.pad4, Py.pad2. cbn -[Py.digit Py.digit_val N.div N.mul N.add].
  rewrite !digit_val_digit.
  unfold Py.date_ok in Hd.
  repeat (apply andb_true_iff in Hd as [Hd ?]).
  repeat match goal with H : (_ <=? _)%N = true |- _ => apply N.leb_le in H end.
  destruct d as [y m a]; simpl in *.
  rewrite digits4, !digits2 by lia. reflexivity.
Qed.

Lemma iso_shape_no_char c s :
  Py.is_digit c = false -> c <> "-"%char -> Py.iso_shape s = true ->
  has_char c s = false.
Proof.
  intros Hc Hm. unfold Py.iso_shape.
  destruct s as [|y1 [|y2 [|y3 [|y4 [|d1 [|m1 [|m2 [|d2 [|a1 [|a2 [|? ?]]]]]]]]]]];
    cbn -[Py.is_digit Ascii.eqb]; try discriminate.
  intros H. do 9 (apply andb_true_iff in H as [H ?]).
  repeat match goal with
         | H : Ascii.eqb _ "-" = true |- _ => apply Ascii.eqb_eq in H; subst
         end.
  repeat match goal with
         | H : Py.is_digit ?a = true |- _ => rewrite (@digit_not c a Hc H); clear H
         end.
  destruct (Ascii.eqb_spec "-"%char c); [congruence | reflexivity].
Qed.

End CellFacts.

(** ** The table survives the write and the read *)

Module CsvFacts.

Import Csv CellFacts.
Local Open Scope string_scope.

Lemma split_on_clean c a : has_char c a = false -> split_on c a = [a].
Proof.
  induction a as [|x a IH]; cbn [has_char split_on]; [reflexivity|].
  intros H. apply orb_false_iff in H as [Hx Ha]. now rewrite Hx, IH.
Qed.

Lemma split_on_app c a b :
  has_char c a = false -> split_on c (a ++ String c b) = a :: split_on c b.
Proof.
  induction a as [|x a IH]; cbn [has_char split_on append].
  - now rewrite Ascii.eqb_refl.
  - intros H. apply orb_false_iff in H as [Hx Ha]. now rewrite Hx, IH.
Qed.

Lemma split_join c cells :
  cells <> [] -> Forall (fun x => has_char c x = false) cells ->
  split_on c (String.concat (String c "") cells) = cells.
Proof.
  induction cells as [|x [|y cells] IH]; intros Hne Hall.
  - congruence.
  - inversion Hall; subst. now apply split_on_clean.
  - inversion Hall as [|? ? Hx Hrest]; subst.
    change (String.concat (String c "") (x :: y :: cells))
      with (x ++ String c (String.concat (String c "") (y :: cells))).
    rewrite split_on_app by assumption. f_equal. apply IH; [discriminate | assumption].
Qed.

Lemma has_char_join c cells :
  Ascii.eqb comma c = false -> Forall (fun x => has_char c x = false) cells ->
  has_char c (join_cells cells) = false.
Proof.
  intros Hc. unfold join_cells.
  induction cells as [|x [|y cells] IH]; intros Hall.
  - reflexivity.
  - now inversion Hall.
  - inversion Hall as [|? ? Hx Hrest]; subst.
    change (String.concat "," (x :: y :: cells))
      with (x ++ String comma (String.concat "," (y :: cells))).
    rewrite has_char_app, Hx. cbn [has_char orb]. rewrite Hc. now apply IH.
Qed.

Lemma append_assoc_string (a b c : string) : (a ++ b) ++ c = a ++ (b ++ c).
Proof.
  induction a as [|x a IH]; cbn [append]; [reflexivity | now rewrite IH].
Qed.

Lemma write_lines_cons l ls :
  write_lines (l :: ls) = l ++ String nl (write_lines ls).
Proof.
  unfold write_lines. destruct ls as [|l' ls]; cbn [map String.concat].
  - reflexivity.
  - now rewrite append_assoc_string.
Qed.

Lemma has_char_write_lines c ls :
  Ascii.eqb nl c = false -> Forall (fun x => has_char c x = false) ls ->
  has_char c (write_lines ls) = false.
Proof.
  intros Hc. induction ls as [|l ls IH]; intros Hall; [reflexivity|].
  inversion Hall; subst. rewrite write_lines_cons, has_char_app.
  cbn [has_char]. rewrite Hc, IH by assumption.
  now rewrite orb_false_r.
Qed.

Lemma read_write_lines ls :
  Forall (fun l => has_char nl l = false /\ l <> "") ls ->
  read_lines (write_lines ls) = ls.
Proof.
  unfold read_lines. induction ls as [|l ls IH]; intros Hall; [reflexivity|].
  inversion Hall as [|? ? [Hl Hne] Hrest]; subst.
  rewrite write_lines_cons, split_on_app by assumption.
  cbn [filter]. destruct (String.eqb_spec l ""); [contradiction|].
  cbn [negb]. f_equal. now apply IH.
Qed.

Lemma cells_no_char c o :
  Py.is_digit c = false -> c <> "-"%char -> c <> "."%char -> row_ok o = true ->
  Forall (fun x => has_char c x = false) (row_cells o).
Proof.
  intros Hc Hm Hp Ho. unfold row_ok in Ho.
  apply andb_true_iff in Ho as [Ho _]. apply andb_true_iff in Ho as [Hd _].
  unfold row_cells.
  repeat constructor;
    auto using iso_shape_no_char, float_repr_no_char, int_repr_no_char.
Qed.

Lemma split_row o :
  row_ok o = true -> split_on comma (join_cells (row_cells o)) = row_cells o.
Proof.
  intros Ho. apply split_join; [discriminate|].
  apply cells_no_char; auto; discriminate.
Qed.

Lemma parse_row_line o :
  row_ok o = true -> parse_row (join_cells (row_cells o)) = Some o.
Proof.
  intros Ho. unfold parse_row. rewrite split_row by assumption.
  unfold row_ok in Ho.
  apply andb_true_iff in Ho as [Ho Hsl]. apply andb_true_iff in Ho as [Hd Hst].
  cbn [row_cells]. rewrite Hd, !float_parse_repr, !int_parse_repr by assumption.
  now destruct o.
Qed.

Lemma parse_rows_lines df :
  Forall (fun o => row_ok o = true) df ->
  parse_rows (map (fun o => join_cells (row_cells o)) df) = Some df.
Proof.
  induction df as [|o df IH]; intros Hall; [reflexivity|].
  inversion Hall; subst. cbn [map parse_rows].
  now rewrite parse_row_line, IH.
Qed.

Lemma line_no_char c o :
  Py.is_digit c = false -> c <> "-"%char -> c <> "."%char ->
  Ascii.eqb comma c = false -> row_ok o = true ->
  has_char c (join_cells (row_cells o)) = false.
Proof.
  intros. apply has_char_join; [assumption|]. now apply cells_no_char.
Qed.

Lemma line_nonempty o : join_cells (row_cells o) <> "".
Proof.
  unfold join_cells, row_cells. cbn [String.concat].
  destruct (date o); discriminate.
Qed.

Lemma to_csv_no_char c df :
  Py.is_digit c = false -> c <> "-"%char -> c <> "."%char ->
  Ascii.eqb comma c = false -> Ascii.eqb nl c = false ->
  has_char c (join_cells columns) = false ->
  Forall (fun o => row_ok o = true) df ->
  has_char c (to_csv df) = false.
Proof.
  intros Hc Hm Hp Hcomma Hnl Hhead Hall. unfold to_csv.
  apply has_char_write_lines; [assumption|].
  constructor; [assumption|].
  apply Forall_map. eapply Forall_impl; [|exact Hall].
  intros o Ho. now apply line_no_char.
Qed.

Lemma n_fields_line o : row_ok o = true -> n_fields (join_cells (row_cells o)) = 5%nat.
Proof.
  intros Ho. unfold n_fields. now rewrite split_row.
Qed.

Lemma no_long_line k df :
  (5 <= k)%nat -> Forall (fun o => row_ok o = true) df ->
  existsb (fun l => Nat.ltb k (n_fields l)) (map (fun o => join_cells (row_cells o)) df)
  = false.
Proof.
  intros Hk. induction df as [|o df IH]; intros Hall; [reflexivity|].
  inversion Hall; subst. cbn [map existsb].
  rewrite n_fields_line, IH by assumption.
  rewrite orb_false_r. apply Nat.ltb_ge. assumption.
Qed.

(** Reading what [to_csv] wrote gives the table back. *)
Lemma read_to_csv df :
  Forall (fun o => row_ok o = true) df -> read_csv (to_csv df) = Frame df.
Proof.
  intros Hall. unfold read_csv.
  rewrite !to_csv_no_char; try assumption; try reflexivity; try discriminate.
  cbn [orb]. unfold to_csv. rewrite read_write_lines.
  - assert (Hlong : too_many_fields (join_cells columns)
                      (map (fun o => join_cells (row_cells o)) df) = false).
    { unfold too_many_fields. destruct df as [|o df]; [reflexivity|].
      inversion Hall; subst. cbn [map].
      apply no_long_line; [|assumption].
      rewrite n_fields_line by assumption. apply Nat.le_max_r. }
    rewrite Hlong.
    change (list_string_eqb (split_on comma (join_cells columns)) columns) with true.
    cbv iota. now rewrite parse_rows_lines.
  - constructor; [split; [reflexivity | discriminate]|].
    apply Forall_map. eapply Forall_impl; [|exact Hall].
    intros o Ho. split; [|apply line_nonempty].
    apply line_no_char; auto; discriminate.
Qed.

(** The two exceptions [read_csv] raises on a text. *)
Lemma read_error_kind txt e :
  read_csv txt = ReadError e -> e = EmptyDataError \/ e = ParserError.
Proof.
  unfold read_csv.
  destruct (has_char dquote txt || has_char cr txt); [discriminate|].
  destruct (read_lines txt) as [|header body]; [intros [= <-]; now left|].
  destruct (too_many_fields header body); [intros [= <-]; now right|].
  destruct (list_string_eqb _ _); [|discriminate].
  destruct (parse_rows body); discriminate.
Qed.

End CsvFacts.

(** ** The script and the data file *)

Module AppFacts.

Import Csv App CellFacts CsvFacts.
Local Open Scope string_scope.
Local Open Scope list_scope.

Lemma keeps_ret A (a : A) : keeps_data (ret a).
Proof. intros w. reflexivity. Qed.

Lemma keeps_raise A e : keeps_data (@raise A e).
Proof. intros w. reflexivity. Qed.

Lemma keeps_emit u : keeps_data (emit u).
Proof. intros w. reflexivity. Qed.

Lemma keeps_out_of_model A : keeps_data (fun w => (@OutOfModel A, w)).
Proof. intros w. reflexivity. Qed.

Lemma keeps_lift A (r : A + exn) : keeps_data (lift r).
Proof. destruct r; [apply keeps_ret | apply keeps_raise]. Qed.

Lemma keeps_write_other path content :
  String.eqb DATA_FILE path = false -> keeps_data (write_file path content).
Proof.
  intros H w. cbn [write_file snd files]. now rewrite H.
Qed.

Lemma keeps_bind A B (c : script A) (k : A -> script B) :
  keeps_data c -> (forall a, keeps_data (k a)) -> keeps_data (bind c k).
Proof.
  intros Hc Hk w. unfold bind. specialize (Hc w).
  destruct (c w) as [[a | e |] w']; cbn [snd] in *; [|assumption..].
  now rewrite Hk.
Qed.

Lemma keeps_pd_read_csv path : keeps_data (pd_read_csv path).
Proof.
  intros w. unfold pd_read_csv.
  destruct (files w path) as [txt|]; [|reflexivity].
  destruct (read_csv txt); reflexivity.
Qed.

(** After a prefix [c], a continuation that keeps the data file leaves it
    as [c] left it. *)
Lemma bind_tail A B (c : script A) (k : A -> script B) w :
  (forall a, keeps_data (k a)) ->
  files (snd (bind c k w)) DATA_FILE = files (snd (c w)) DATA_FILE.
Proof.
  intros Hk. unfold bind.
  destruct (c w) as [[a | e |] w']; cbn [snd]; [apply Hk | reflexivity..].
Qed.

Create HintDb keeps.
#[local] Hint Resolve keeps_ret keeps_raise keeps_emit keeps_lift keeps_out_of_model
  keeps_pd_read_csv : keeps.

Ltac keeps :=
  repeat first
    [ apply keeps_bind; [|intros ?]
    | apply keeps_write_other; reflexivity
    | solve [auto with keeps]
    | match goal with
      | |- keeps_data (if ?b then _ else _) => destruct b
      | |- keeps_data (match ?x with _ => _ end) => destruct x
      end ].

Section Run.

Variable draw : list Sklearn.sample -> list nat.
Variable generator : string -> string + exn.
Variable progress_of : Py.date -> list string -> Z -> Q + exn.
Variable savefig : list string -> list Z -> string.
Variable canvas_save : nat -> string -> string.

Lemma keeps_risk_today w df : keeps_data (risk_today draw w df).
Proof. unfold risk_today. keeps. Qed.

Lemma keeps_tab2 w df : keeps_data (tab2 draw w df).
Proof. unfold tab2. pose proof (keeps_risk_today w df). keeps. Qed.

Lemma keeps_tab3 today w df : keeps_data (tab3 generator progress_of today w df).
Proof. unfold tab3. keeps. Qed.

Lemma keeps_export_pdf b df : keeps_data (export_pdf savefig canvas_save b df).
Proof. unfold export_pdf. keeps. Qed.

Lemma keeps_tab4 w df : keeps_data (tab4 savefig canvas_save w df).
Proof. unfold tab4. pose proof (keeps_export_pdf (name_bound "plt") df). keeps. Qed.

Lemma keeps_tab1_idle today w df :
  w_submitted w = false -> keeps_data (tab1 today w df).
Proof. intros H. unfold tab1. rewrite H. keeps. Qed.

Lemma load_present w df :
  files w DATA_FILE = Some (to_csv df) -> Forall (fun o => row_ok o = true) df ->
  load w = (Done df, w).
Proof.
  intros Hf Hok. unfold load, try_except, pd_read_csv.
  now rewrite Hf, read_to_csv.
Qed.

Lemma load_absent w :
  files w DATA_FILE = None ->
  load w = (Done [],
            mkworld (fun p => if String.eqb p DATA_FILE then Some (to_csv []) else files w p)
                    (screen w)).
Proof.
  intros Hf. unfold load, try_except, pd_read_csv. now rewrite Hf.
Qed.

Lemma keeps_load_present w :
  files w DATA_FILE <> None -> files (snd (load w)) DATA_FILE = files w DATA_FILE.
Proof.
  intros Hf. unfold load, try_except, pd_read_csv.
  destruct (files w DATA_FILE) as [txt|] eqn:E; [|congruence].
  destruct (read_csv txt) as [df | e |] eqn:R; cbn [snd]; try assumption.
  apply read_error_kind in R as [-> | ->]; assumption.
Qed.

(** What [load] returns on a file that holds [df], and the file after. *)
Lemma load_holds fs scr df :
  holds fs df ->
  exists w', load (mkworld fs scr) = (Done df, w') /\ files w' DATA_FILE = Some (to_csv df).
Proof.
  intros [[Hf | [-> Hf]] Hok].
  - exists (mkworld fs scr). split; [now apply load_present | assumption].
  - eexists. split; [now apply load_absent | reflexivity].
Qed.

Lemma row_ok_new_data today w :
  widgets_ok w = true -> row_ok (new_data today w) = true.
Proof.
  intros Hw. unfold widgets_ok in Hw.
  do 9 (apply andb_true_iff in Hw as [Hw ?]).
  unfold row_ok, new_data. cbn [date study_hours sleep_hours].
  rewrite iso_shape_strftime, Hw. assumption.
Qed.

Lemma tab1_data today w df w0 :
  files (snd (tab1 today w df w0)) DATA_FILE =
  if w_submitted w then Some (to_csv (df ++ [new_data today w]))
  else files w0 DATA_FILE.
Proof.
  unfold tab1. destruct (w_submitted w); reflexivity.
Qed.

(** The data file after one run. *)
Lemma run_holds today w fs scr df :
  holds fs df -> widgets_ok w = true ->
  holds (files (snd (run draw generator progress_of savefig canvas_save today w
                       (mkworld fs scr))))
        (if w_submitted w then df ++ [new_data today w] else df).
Proof.
  intros Hh Hw.
  destruct (@load_holds fs scr df Hh) as (w' & Hload & Hfile).
  destruct Hh as [_ Hok].
  unfold run, holds.
  unfold bind at 1. rewrite Hload.
  rewrite bind_tail.
  2:{ intros a. apply keeps_bind; [apply keeps_tab2|]. intros b.
      apply keeps_bind; [apply keeps_tab3 | intros; apply keeps_tab4]. }
  rewrite tab1_data. destruct (w_submitted w).
  - split; [now left|]. apply Forall_app. split; [assumption|].
    constructor; [|constructor]. now apply row_ok_new_data.
  - split; [now left | assumption].
Qed.

Lemma session_holds events : forall fs df,
  holds fs df -> Forall (fun e => widgets_ok (snd e) = true) events ->
  holds (session draw generator progress_of savefig canvas_save events fs)
        (df ++ appended events).
Proof.
  induction events as [|[today w] events IH]; intros fs df Hh Hall.
  - cbn. now rewrite app_nil_r.
  - inversion Hall as [|? ? Hw Hrest]; subst. cbn [session snd fst] in *.
    pose proof (@run_holds today w fs [] df Hh Hw) as Hrun.
    specialize (IH _ _ Hrun Hrest).
    unfold appended in *. cbn [filter snd].
    destruct (w_submitted w); cbn [map fst snd].
    + now rewrite <- app_assoc in IH.
    + assumption.
Qed.

End Run.

End AppFacts.

(** ** The tree builder returns a tree, and the tree predicts a class *)

Module TreeFacts.

Import Sklearn.

Lemma best_of_in score cs : forall best c,
  best_of score best cs = Some c -> best = Some c \/ In c cs.
Proof.
  induction cs as [|x cs IH]; intros best c H; cbn [best_of] in H.
  - now left.
  - destruct best as [b|].
    + destruct (Qlt_bool (score b) (score x)).
      * apply IH in H as [[= <-] | H]; right; [now left | now right].
      * apply IH in H as [H | H]; [now left | right; now right].
    + apply IH in H as [[= <-] | H]; right; [now left | now right].
Qed.

(** A chosen split leaves a sample on each side. *)
Lemma node_split_sides order classes S f thr :
  node_split order classes S = Some (f, thr) ->
  (1 <= List.length (left_part f thr S) /\ 1 <= List.length (right_part f thr S))%nat.
Proof.
  unfold node_split. intros H.
  apply best_of_in in H as [H | H]; [discriminate|].
  apply in_flat_map in H as (f' & _ & H).
  unfold candidates in H. apply filter_In in H as [_ H].
  cbn [fst snd] in H. apply andb_true_iff in H as [Hl Hr].
  split; now apply Nat.leb_le.
Qed.

Lemma parts_length f thr S :
  (List.length (left_part f thr S) + List.length (right_part f thr S) = List.length S)%nat.
Proof.
  unfold left_part, right_part. apply filter_length.
Qed.

(** With as much fuel as samples, the builder returns a tree. *)
Lemma build_total draw classes : forall fuel S,
  (List.length S <= Datatypes.S fuel)%nat -> exists t, build draw fuel classes S = Some t.
Proof.
  induction fuel as [|fuel IH]; intros S Hlen; cbn [build].
  - replace (List.length S <? 2)%nat with true
      by (symmetry; apply Nat.ltb_lt; lia).
    cbn [orb]. eauto.
  - destruct ((List.length S <? 2)%nat || Qle_bool _ EPSILON); [eauto|].
    destruct (node_split (draw S) classes S) as [[f thr]|] eqn:Hs; [|eauto].
    apply node_split_sides in Hs as [Hl Hr].
    pose proof (parts_length f thr S) as Hsum.
    destruct (IH (left_part f thr S)) as [l ->]; [lia|].
    destruct (IH (right_part f thr S)) as [r ->]; [lia|].
    eauto.
Qed.

Lemma fit_total draw X y :
  exists m, DecisionTreeClassifier_fit draw X y = Some m /\ classes_ m = unique y.
Proof.
  unfold DecisionTreeClassifier_fit.
  destruct (@build_total draw (unique y) (List.length (combine X y)) (combine X y))
    as [t ->]; [apply Nat.le_succ_diag_r|].
  eexists; split; reflexivity.
Qed.

(** Every leaf holds one count per class. *)
Lemma build_value_length draw classes : forall fuel S t x,
  build draw fuel classes S = Some t ->
  List.length (apply_tree t x) = List.length classes.
Proof.
  assert (Hleaf : forall S x,
             List.length (apply_tree (Leaf (class_counts classes S)) x)
             = List.length classes).
  { intros. cbn [apply_tree]. unfold class_counts. apply length_map. }
  induction fuel as [|fuel IH]; intros S t x; cbn [build].
  - destruct (_ || _); [intros [= <-]; apply Hleaf|].
    destruct (node_split _ _ _) as [[f thr]|]; [discriminate|].
    intros [= <-]; apply Hleaf.
  - destruct (_ || _); [intros [= <-]; apply Hleaf|].
    destruct (node_split _ _ _) as [[f thr]|]; [|intros [= <-]; apply Hleaf].
    destruct (build draw fuel classes (left_part f thr S)) as [l|] eqn:El; [|discriminate].
    destruct (build draw fuel classes (right_part f thr S)) as [r|] eqn:Er; [|discriminate].
    intros [= <-]. cbn [apply_tree].
    destruct (goes_left f thr x); eauto.
Qed.

Lemma argmax_from_lt : forall l i best_i best,
  (best_i < i)%nat -> (argmax_from i best_i best l < i + List.length l)%nat.
Proof.
  induction l as [|c l IH]; intros i best_i best Hlt; cbn [argmax_from List.length].
  - lia.
  - destruct (best <? c)%nat.
    + specialize (IH (S i) i c). lia.
    + specialize (IH (S i) best_i best). lia.
Qed.

Lemma argmax_lt l : l <> [] -> (argmax l < List.length l)%nat.
Proof.
  destruct l as [|c l]; [congruence|]. intros _. cbn [argmax List.length].
  pose proof (@argmax_from_lt l 1%nat 0%nat c). lia.
Qed.

Lemma In_insert_Z x a l : In x (insert_Z a l) <-> x = a \/ In x l.
Proof.
  induction l as [|b l IH]; cbn [insert_Z].
  - cbn. intuition.
  - destruct (a <=? b)%Z; cbn [In]; [intuition | rewrite IH; cbn; intuition].
Qed.

Lemma In_sort_Z x l : In x (sort_Z l) <-> In x l.
Proof.
  induction l as [|a l IH]; cbn [sort_Z fold_right]; [reflexivity|].
  fold (sort_Z l). rewrite In_insert_Z, IH. cbn. intuition.
Qed.

Lemma In_unique x y : In x (unique y) <-> In x y.
Proof.
  unfold unique. now rewrite In_sort_Z, nodup_In.
Qed.

Lemma length_insert_Z a l : List.length (insert_Z a l) = S (List.length l).
Proof.
  induction l as [|b l IH]; cbn [insert_Z]; [reflexivity|].
  destruct (a <=? b)%Z; cbn [List.length]; [reflexivity | now rewrite IH].
Qed.

Lemma length_sort_Z l : List.length (sort_Z l) = List.length l.
Proof.
  induction l as [|a l IH]; [reflexivity|].
  cbn [sort_Z fold_right]. fold (sort_Z l). now rewrite length_insert_Z, IH.
Qed.

(** The prediction of a fitted tree is one of the training labels. *)
Lemma predict_in_labels draw X y m x :
  y <> [] -> DecisionTreeClassifier_fit draw X y = Some m -> In (tree_predict m x) y.
Proof.
  intros Hy. unfold DecisionTreeClassifier_fit.
  destruct (build draw _ (unique y) (combine X y)) as [t|] eqn:Hb; [|discriminate].
  intros [= <-]. unfold tree_predict. cbn [classes_ tree_].
  apply In_unique. apply nth_In.
  rewrite <- (@build_value_length _ _ _ _ _ x Hb).
  apply argmax_lt. intros Hnil.
  apply (f_equal (@List.length nat)) in Hnil.
  rewrite (@build_value_length _ _ _ _ _ x Hb) in Hnil.
  unfold unique in Hnil. rewrite length_sort_Z in Hnil. cbn in Hnil.
  destruct y as [|a y]; [congruence|].
  assert (Hin : In a (nodup Z.eq_dec (a :: y))) by (apply nodup_In; now left).
  destruct (nodup Z.eq_dec (a :: y)); [contradiction | discriminate].
Qed.

(** More than one distinct value, in the terms of the guard of line 81. *)
Lemma nodup_single (l : list Z) :
  (List.length (nodup Z.eq_dec l) <= 1)%nat <-> (forall a b, In a l -> In b l -> a = b).
Proof.
  split.
  - intros Hlen a b Ha Hb.
    apply (nodup_In Z.eq_dec) in Ha, Hb.
    destruct (nodup Z.eq_dec l) as [|x [|y r]]; cbn in *; try lia; intuition congruence.
  - intros Hsame.
    pose proof (NoDup_nodup Z.eq_dec l) as Hnd.
    assert (Hall : forall a b, In a (nodup Z.eq_dec l) -> In b (nodup Z.eq_dec l) -> a = b).
    { intros a b Ha Hb. apply nodup_In in Ha, Hb. auto. }
    destruct (nodup Z.eq_dec l) as [|x [|y r]]; cbn; try lia.
    exfalso. inversion Hnd as [|? ? Hnotin _]; subst.
    apply Hnotin. left. apply Hall; cbn; auto.
Qed.

End TreeFacts.

(** ** The fitted line is the least-squares line *)

Module RegressionFacts.

Import Sklearn.
Local Open Scope Q_scope.

Lemma combine_fst_snd (ps : list (Q * Q)) : combine (map fst ps) (map snd ps) = ps.
Proof.
  induction ps as [|[x y] ps IH]; cbn; [reflexivity | now rewrite IH].
Qed.

Lemma qnat_S n : qnat (S n) == qnat n + 1.
Proof.
  unfold qnat. rewrite Nat2Z.inj_succ. unfold Z.succ.
  rewrite inject_Z_plus. reflexivity.
Qed.

Lemma qnat_pos n : 0 < qnat (S n).
Proof.
  unfold qnat, Qlt. cbn. lia.
Qed.

Lemma sq_nonneg (x : Q) : 0 <= x * x.
Proof. nra. Qed.

Lemma qsum_sq_nonneg (g : Q * Q -> Q) ps : 0 <= qsum (map (fun p => g p * g p) ps).
Proof.
  induction ps as [|p ps IH]; cbn [map qsum fold_right]; [apply Qle_refl|].
  fold (qsum (map (fun p => g p * g p) ps)).
  pose proof (sq_nonneg (g p)). lra.
Qed.

Lemma qsum_sq_zero (g : Q * Q -> Q) ps :
  qsum (map (fun p => g p * g p) ps) <= 0 -> forall p, In p ps -> g p == 0.
Proof.
  induction ps as [|q ps IH]; cbn [map qsum fold_right]; [contradiction|].
  fold (qsum (map (fun p => g p * g p) ps)).
  intros Hle p Hin.
  pose proof (qsum_sq_nonneg g ps) as Hrest.
  pose proof (sq_nonneg (g q)) as Hq.
  destruct Hin as [<- | Hin].
  - assert (Hz : g q * g q == 0) by (apply Qle_antisym; lra).
    apply Qmult_integral in Hz. tauto.
  - apply IH; [lra | assumption].
Qed.

Section Line.

Variables a b a' b' xm ym : Q.

(** The residuals of another line, in terms of those of [a + b x]. *)
Lemma residuals_shift (ps : list (Q * Q)) :
  qsum (map (fun p => (snd p - (a' + b' * fst p)) * (snd p - (a' + b' * fst p))) ps)
  == qsum (map (fun p => (snd p - (a + b * fst p)) * (snd p - (a + b * fst p))) ps)
     + 2 * (a - a') * qsum (map (fun p => snd p - (a + b * fst p)) ps)
     + 2 * (b - b') * qsum (map (fun p => (snd p - (a + b * fst p)) * fst p) ps)
     + qsum (map (fun p => ((a - a') + (b - b') * fst p) * ((a - a') + (b - b') * fst p)) ps).
Proof.
  induction ps as [|p ps IH]; cbn [map qsum fold_right]; [ring|].
  unfold qsum in IH. rewrite IH. ring.
Qed.

Lemma residual_sum (ps : list (Q * Q)) :
  qsum (map (fun p => snd p - (a + b * fst p)) ps)
  == qsum (map snd ps) - qnat (List.length ps) * a - b * qsum (map fst ps).
Proof.
  induction ps as [|p ps IH]; cbn [map qsum fold_right List.length].
  - unfold qnat. cbn. ring.
  - unfold qsum in IH. rewrite IH, qnat_S. unfold qsum. ring.
Qed.

Lemma residual_moment (ps : list (Q * Q)) :
  qsum (map (fun p => (snd p - (a + b * fst p)) * fst p) ps)
  == qsum (map (fun p => (fst p - xm) * (snd p - ym)) ps)
     - b * qsum (map (fun p => (fst p - xm) * (fst p - xm)) ps)
     + xm * (qsum (map snd ps) - qnat (List.length ps) * ym)
     - b * xm * (qsum (map fst ps) - qnat (List.length ps) * xm)
     + (ym - a - b * xm) * qsum (map fst ps).
Proof.
  induction ps as [|p ps IH]; cbn [map qsum fold_right List.length].
  - unfold qnat. cbn. ring.
  - unfold qsum in IH. rewrite IH, qnat_S. unfold qsum. ring.
Qed.

End Line.

Lemma centred_sq_pairs xm (ps : list (Q * Q)) :
  centred_sq xm (map fst ps) = qsum (map (fun p => (fst p - xm) * (fst p - xm)) ps).
Proof.
  unfold centred_sq. now rewrite map_map.
Qed.

Lemma centred_cross_pairs xm ym (ps : list (Q * Q)) :
  centred_cross xm ym (map fst ps) (map snd ps)
  = qsum (map (fun p => (fst p - xm) * (snd p - ym)) ps).
Proof.
  unfold centred_cross. now rewrite combine_fst_snd.
Qed.

Lemma sq_residuals_pairs a b (ps : list (Q * Q)) :
  sq_residuals a b (map fst ps) (map snd ps)
  = qsum (map (fun p => (snd p - (a + b * fst p)) * (snd p - (a + b * fst p))) ps).
Proof.
  unfold sq_residuals. now rewrite combine_fst_snd.
Qed.

Section Fit.

Variable ps : list (Q * Q).
Variables p1 p2 : Q * Q.
Hypothesis in1 : In p1 ps.
Hypothesis in2 : In p2 ps.
Hypothesis distinct : ~ fst p1 == fst p2.

Let n := qnat (List.length ps).
Let xm := mean (map fst ps).
Let ym := mean (map snd ps).
Let sxx := centred_sq xm (map fst ps).
Let sxy := centred_cross xm ym (map fst ps) (map snd ps).
Let m := LinearRegression_fit (map fst ps) (map snd ps).

Lemma n_nonzero : ~ n == 0.
Proof.
  unfold n. destruct ps as [|p l]; [contradiction|].
  cbn [List.length]. pose proof (qnat_pos (List.length l)). lra.
Qed.

Lemma n_xm : n * xm == qsum (map fst ps).
Proof.
  unfold xm, mean. rewrite length_map.
  change (inject_Z (Z.of_nat (List.length ps))) with n.
  pose proof n_nonzero. generalize dependent n. intros; field; assumption.
Qed.

Lemma n_ym : n * ym == qsum (map snd ps).
Proof.
  unfold ym, mean. rewrite length_map.
  change (inject_Z (Z.of_nat (List.length ps))) with n.
  pose proof n_nonzero. generalize dependent n. intros; field; assumption.
Qed.

(** Two distinct feature values: the feature varies. *)
Lemma sxx_nonzero : ~ sxx == 0.
Proof.
  unfold sxx. rewrite centred_sq_pairs. intros H.
  assert (Hz : forall p, In p ps -> fst p - xm == 0).
  { apply (qsum_sq_zero (fun p => fst p - xm)). rewrite H. apply Qle_refl. }
  apply distinct. pose proof (Hz _ in1). pose proof (Hz _ in2). lra.
Qed.

Lemma coef_eq : coef_ m == sxy / sxx.
Proof.
  unfold m, LinearRegression_fit. cbn [coef_].
  fold xm ym. fold sxx sxy.
  destruct (Qeq_bool sxx 0) eqn:E; [|reflexivity].
  apply Qeq_bool_iff in E. now apply sxx_nonzero in E.
Qed.

Lemma intercept_eq : intercept_ m == ym - xm * coef_ m.
Proof. reflexivity. Qed.

(** The normal equations. *)
Lemma normal_sum :
  qsum (map (fun p => snd p - (intercept_ m + coef_ m * fst p)) ps) == 0.
Proof.
  rewrite residual_sum. fold n. rewrite <- n_xm, <- n_ym, intercept_eq. ring.
Qed.

Lemma normal_moment :
  qsum (map (fun p => (snd p - (intercept_ m + coef_ m * fst p)) * fst p) ps) == 0.
Proof.
  rewrite (residual_moment (intercept_ m) (coef_ m) xm ym). fold n.
  rewrite <- n_xm, <- n_ym.
  rewrite <- centred_sq_pairs, <- centred_cross_pairs. fold sxx sxy.
  rewrite intercept_eq, coef_eq. field. exact sxx_nonzero.
Qed.

Lemma excess a b :
  sq_residuals a b (map fst ps) (map snd ps)
  == sq_residuals (intercept_ m) (coef_ m) (map fst ps) (map snd ps)
     + qsum (map (fun p => ((intercept_ m - a) + (coef_ m - b) * fst p)
                           * ((intercept_ m - a) + (coef_ m - b) * fst p)) ps).
Proof.
  rewrite !sq_residuals_pairs.
  rewrite (residuals_shift (intercept_ m) (coef_ m) a b).
  rewrite normal_sum, normal_moment. ring.
Qed.

(** No line has a smaller sum of squared residuals. *)
Lemma fit_least a b :
  sq_residuals (intercept_ m) (coef_ m) (map fst ps) (map snd ps)
  <= sq_residuals a b (map fst ps) (map snd ps).
Proof.
  rewrite (excess a b).
  pose proof (qsum_sq_nonneg
                (fun p => (intercept_ m - a) + (coef_ m - b) * fst p) ps) as H.
  cbv beta in H. lra.
Qed.

(** And no other line has as small a one. *)
Lemma fit_unique a b :
  sq_residuals a b (map fst ps) (map snd ps)
  <= sq_residuals (intercept_ m) (coef_ m) (map fst ps) (map snd ps) ->
  a == intercept_ m /\ b == coef_ m.
Proof.
  rewrite (excess a b). intros H.
  assert (Hz : forall p, In p ps ->
                 (intercept_ m - a) + (coef_ m - b) * fst p == 0).
  { apply (qsum_sq_zero (fun p => (intercept_ m - a) + (coef_ m - b) * fst p)). lra. }
  pose proof (Hz _ in1) as H1. pose proof (Hz _ in2) as H2.
  assert (Hb : (coef_ m - b) * (fst p1 - fst p2) == 0) by lra.
  apply Qmult_integral in Hb as [Hb | Hb]; [|exfalso; apply distinct; lra].
  assert (Ha : intercept_ m - a == 0).
  { rewrite <- H1. rewrite Hb. ring. }
  split; lra.
Qed.

End Fit.

End RegressionFacts.

(** ** The analysis tab *)

Module AnalysisFacts.

Import Csv App AppFacts TreeFacts.
Local Open Scope string_scope.
Local Open Scope list_scope.

Lemma Qlt_bool_iff a b : Sklearn.Qlt_bool a b = true <-> (a < b)%Q.
Proof.
  unfold Sklearn.Qlt_bool. rewrite negb_true_iff.
  split.
  - intros H. apply Qnot_le_lt. intros Hle. apply Qle_bool_iff in Hle. congruence.
  - intros H. destruct (Qle_bool b a) eqn:E; [|reflexivity].
    apply Qle_bool_iff in E. exfalso. now apply (Qlt_not_le a b).
Qed.

Lemma burnout_rule_one sleep stress :
  burnout_rule sleep stress = 1 <-> (sleep < 6 /\ 7 < stress)%Q.
Proof.
  unfold burnout_rule. rewrite <- !Qlt_bool_iff.
  destruct (Sklearn.Qlt_bool sleep 6), (Sklearn.Qlt_bool 7 stress); cbn;
    intuition congruence.
Qed.

Lemma burnout_rule_binary sleep stress :
  burnout_rule sleep stress = 0 \/ burnout_rule sleep stress = 1.
Proof.
  unfold burnout_rule. destruct (_ && _); auto.
Qed.

Lemma burnout_risk_binary df r : In r (burnout_risk df) -> r = 0 \/ r = 1.
Proof.
  unfold burnout_risk. intros H. apply in_map_iff in H as (o & <- & _).
  apply burnout_rule_binary.
Qed.

Lemma short_list_same (l : list Z) :
  (List.length l < 2)%nat -> forall a b, In a l -> In b l -> a = b.
Proof.
  destruct l as [|x [|y l]]; cbn; intros; try lia; intuition congruence.
Qed.

Section Run.

Variable draw : list Sklearn.sample -> list nat.

(** Lines 79-83 return without an exception; [risk] is bound exactly when
    the labels are not all the same, to a prediction of the fitted
    tree. *)
Lemma risk_today_value w df :
  exists risk,
    (forall w0, risk_today draw w df w0 = (Done risk, w0)) /\
    (risk = None <->
     (forall a b, In a (burnout_risk df) -> In b (burnout_risk df) -> a = b)) /\
    (forall r, risk = Some r ->
       (r = 0 \/ r = 1) /\
       exists m, Sklearn.DecisionTreeClassifier_fit draw (X_tree df) (burnout_risk df) = Some m
                 /\ r = Sklearn.tree_predict m
                        [Py.float_val (w_sleep_hours w); inject_Z (w_stress_level w);
                         Py.float_val (w_study_hours w)]).
Proof.
  unfold risk_today.
  destruct (1 <? List.length (nodup Z.eq_dec (burnout_risk df)))%nat eqn:G.
  - apply Nat.ltb_lt in G.
    destruct (fit_total draw (X_tree df) (burnout_risk df)) as (m & Hm & _).
    rewrite Hm. eexists. split; [reflexivity|]. split.
    + split; [discriminate|]. intros Hsame. apply nodup_single in Hsame. lia.
    + intros r [= <-]. split; [|eauto].
      apply (@burnout_risk_binary df).
      eapply predict_in_labels; [|exact Hm].
      intros E. rewrite E in G. cbn in G. lia.
  - apply Nat.ltb_ge in G. exists None. split; [reflexivity|]. split.
    + split; [intros _; now apply nodup_single | reflexivity].
    + discriminate.
Qed.

(** The page and the table after the analysis tab, from two rows on. *)
Lemma tab2_long w df world risk :
  (2 <= List.length df)%nat ->
  (forall w0, risk_today draw w df w0 = (Done risk, w0)) ->
  tab2 draw w df world =
  (Done (mkanalysed df (Some (burnout_risk df))),
   mkworld (files world)
     (screen world ++
      [st_header "Analysis & Insights"; st_write_pred_stress (pred_stress df)] ++
      match risk with
      | Some r => [st_write (burnout_message r)]
      | None => []
      end ++
      [st_plotly_chart (px_line (map date df) (map stress_level df) "Stress Over Time");
       st_plotly_chart
         (px_scatter_ols (map (fun o => Py.float_val (study_hours o)) df)
            (map stress_level df) "Stress vs Study Hours")])).
Proof.
  intros Hlen Hrisk. unfold tab2.
  replace (List.length df <? 2)%nat with false by (symmetry; apply Nat.ltb_ge; lia).
  unfold bind at 1. cbn [emit]. unfold bind at 1. cbn [emit].
  unfold bind at 1. rewrite Hrisk.
  destruct risk as [r|]; cbn [bind emit ret files screen];
    unfold bind, emit, ret; cbn [files screen];
    repeat rewrite <- app_assoc; reflexivity.
Qed.

Lemma tab2_short w df world :
  (List.length df < 2)%nat ->
  tab2 draw w df world =
  (Done (mkanalysed df None),
   mkworld (files world)
     (screen world ++
      [st_header "Analysis & Insights";
       st_warning "Enter at least 2 days of data for analysis."])).
Proof.
  intros Hlen. unfold tab2.
  replace (List.length df <? 2)%nat with true by (symmetry; apply Nat.ltb_lt; lia).
  unfold bind, emit, ret; cbn [files screen].
  repeat rewrite <- app_assoc; reflexivity.
Qed.

Lemma build_step fuel classes S :
  Sklearn.build draw (Datatypes.S fuel) classes S =
  if (List.length S <? 2)%nat
     || Qle_bool (Sklearn.gini (Sklearn.class_counts classes S)) Sklearn.EPSILON
  then Some (Sklearn.Leaf (Sklearn.class_counts classes S))
  else
    match Sklearn.node_split (draw S) classes S with
    | None => Some (Sklearn.Leaf (Sklearn.class_counts classes S))
    | Some (f, thr) =>
        match Sklearn.build draw fuel classes (Sklearn.left_part f thr S),
              Sklearn.build draw fuel classes (Sklearn.right_part f thr S) with
        | Some l, Some r => Some (Sklearn.Node f thr l r)
        | _, _ => None
        end
    end.
Proof. reflexivity. Qed.

End Run.

(** The six orders in which three features can be visited. *)
Lemma three_orders (l : list nat) :
  Permutation l [0; 1; 2]%nat ->
  l = [0; 1; 2]%nat \/ l = [0; 2; 1]%nat \/ l = [1; 0; 2]%nat \/
  l = [1; 2; 0]%nat \/ l = [2; 0; 1]%nat \/ l = [2; 1; 0]%nat.
Proof.
  intros H.
  pose proof (Permutation_length H) as Hlen.
  assert (Hnd : NoDup l).
  { apply (Permutation_NoDup (Permutation_sym H)).
    repeat constructor; cbn; intuition discriminate. }
  destruct l as [|a [|b [|c [|? ?]]]]; try discriminate.
  assert (Ha : In a [0; 1; 2]%nat) by (apply (Permutation_in _ H); cbn; auto).
  assert (Hb : In b [0; 1; 2]%nat) by (apply (Permutation_in _ H); cbn; auto).
  assert (Hc : In c [0; 1; 2]%nat) by (apply (Permutation_in _ H); cbn; auto).
  inversion Hnd as [|? ? Hna Hnd']; subst.
  inversion Hnd' as [|? ? Hnb _]; subst.
  cbn in Ha, Hb, Hc, Hna, Hnb.
  destruct Ha as [<- | [<- | [<- | []]]], Hb as [<- | [<- | [<- | []]]],
           Hc as [<- | [<- | [<- | []]]];
    tauto.
Qed.

End AnalysisFacts.

(* ================================================================= *)
(** * The claims *)

Section Claims.

Import Csv App CellFacts CsvFacts AppFacts TreeFacts AnalysisFacts.
Local Open Scope string_scope.
Local Open Scope list_scope.

Variable draw : list Sklearn.sample -> list nat.
Variable generator : string -> string + exn.
Variable progress_of : Py.date -> list string -> Z -> Q + exn.
Variable savefig : list string -> list Z -> string.
Variable canvas_save : nat -> string -> string.

(** C2.  The burnout label of a historical row is 1 exactly when its
    sleep_hours is strictly below 6 and its stress_level strictly above 7,
    and 0 otherwise; the four boundary pairs (5.9, 8), (6, 8), (5, 7) and
    (5, 7.1) are labelled 1, 0, 0 and 1. *)
Theorem burnout_label_rule :
  (forall df,
      burnout_risk df =
      map (fun o => burnout_rule (Py.float_val (sleep_hours o)) (inject_Z (stress_level o))) df) /\
  (forall sleep stress : Q,
      (burnout_rule sleep stress = 1 <-> (sleep < 6 /\ 7 < stress)%Q) /\
      (burnout_rule sleep stress = 0 <-> ~ (sleep < 6 /\ 7 < stress)%Q)) /\
  burnout_rule (Py.float_val (Py.float_lit "5.9")) (inject_Z 8) = 1 /\
  burnout_rule (Py.float_val (Py.float_lit "6.0")) (inject_Z 8) = 0 /\
  burnout_rule (Py.float_val (Py.float_lit "5.0")) (inject_Z 7) = 0 /\
  burnout_rule (Py.float_val (Py.float_lit "5.0")) (Py.float_val (Py.float_lit "7.1")) = 1.
Proof using.
  clear draw generator progress_of savefig canvas_save.
  split; [reflexivity|]. split; [|repeat split; reflexivity].
  intros sleep stress. split; [apply burnout_rule_one|].
  rewrite <- burnout_rule_one.
  destruct (burnout_rule_binary sleep stress) as [E | E]; rewrite E;
    split; intros; try congruence; try discriminate.
Qed.

(** C3.  With fewer than 2 rows the analysis tab fits no regression and shows
    no predicted stress: it shows the warning and completes.  With at least 2
    rows it shows the predicted stress and no warning, and completes. *)
Theorem stress_prediction_guard :
  forall (w : widgets) (df : DataFrame) (world : world),
    ((List.length df < 2)%nat ->
     tab2 draw w df world =
     (Done (mkanalysed df None),
      mkworld (files world)
        (screen world ++
         [st_header "Analysis & Insights";
          st_warning "Enter at least 2 days of data for analysis."]))) /\
    ((2 <= List.length df)%nat ->
     exists rest,
       tab2 draw w df world =
       (Done (mkanalysed df (Some (burnout_risk df))),
        mkworld (files world)
          (screen world ++
           st_header "Analysis & Insights" :: st_write_pred_stress (pred_stress df) :: rest)) /\
       (forall s, ~ In (st_warning s) rest) /\
       (forall q, ~ In (st_write_pred_stress q) rest)).
Proof using draw.
  clear generator progress_of savefig canvas_save.
  intros w df world. split.
  - apply tab2_short.
  - intros Hlen.
    destruct (risk_today_value draw w df) as (risk & Hrun & _).
    eexists. split; [rewrite (@tab2_long draw w df world risk Hlen Hrun); reflexivity|].
    split; intros x; destruct risk; cbn; intuition discriminate.
Qed.

(** C4.  When every row has the same burnout label (in particular with 0 or
    1 rows) the analysis tab shows no burnout prediction.  Otherwise a tree is
    fitted on all rows and the prediction for today's sleep, stress and study
    values, which is 0 or 1, is shown. *)
Theorem burnout_prediction_guard :
  forall (w : widgets) (df : DataFrame) (world : world),
    let same := forall a b, In a (burnout_risk df) -> In b (burnout_risk df) -> a = b in
    ((List.length df < 2)%nat -> same) /\
    (same ->
     exists adf items,
       tab2 draw w df world = (Done adf, mkworld (files world) (screen world ++ items)) /\
       forall r, ~ In (st_write (burnout_message r)) items) /\
    (~ same ->
     exists m r,
       Sklearn.DecisionTreeClassifier_fit draw (X_tree df) (burnout_risk df) = Some m /\
       r = Sklearn.tree_predict m
             [Py.float_val (w_sleep_hours w); inject_Z (w_stress_level w);
              Py.float_val (w_study_hours w)] /\
       (r = 0 \/ r = 1) /\
       exists adf before after,
         tab2 draw w df world =
         (Done adf,
          mkworld (files world)
            (screen world ++ before ++ [st_write (burnout_message r)] ++ after)) /\
         (forall r', ~ In (st_write (burnout_message r')) (before ++ after))).
Proof using draw.
  clear generator progress_of savefig canvas_save.
  intros w df world same. subst same.
  assert (Hshort : (List.length df < 2)%nat ->
                   forall a b, In a (burnout_risk df) -> In b (burnout_risk df) -> a = b).
  { intros Hlen. apply (@short_list_same (burnout_risk df)).
    unfold burnout_risk. now rewrite length_map. }
  split; [exact Hshort|].
  destruct (risk_today_value draw w df) as (risk & Hrun & Hnone & Hsome).
  split.
  - intros Hsame. apply Hnone in Hsame. subst risk.
    destruct (Nat.lt_ge_cases (List.length df) 2) as [Hlen | Hlen].
    + do 2 eexists. split; [apply (@tab2_short draw w df world Hlen)|].
      intros r; cbn; intuition discriminate.
    + do 2 eexists. split; [apply (@tab2_long draw w df world _ Hlen Hrun)|].
      intros r; cbn; intuition discriminate.
  - intros Hdiff.
    destruct risk as [r|]; [|exfalso; apply Hdiff, Hnone; reflexivity].
    destruct (Hsome r eq_refl) as (Hbin & m & Hm & Hr).
    exists m, r. repeat (split; [assumption|]).
    destruct (Nat.lt_ge_cases (List.length df) 2) as [Hlen | Hlen];
      [exfalso; apply Hdiff, Hshort, Hlen|].
    do 3 eexists. split; [apply (@tab2_long draw w df world _ Hlen Hrun)|].
    intros r'; cbn; intuition discriminate.
Qed.

(** C5.  When the data file is absent, load returns the empty table, writes
    the file with the five column names and raises nothing; reading that file
    gives the empty table.  When the file is present and read_csv raises, the
    exception leaves load and nothing is written. *)
Theorem load_missing_or_malformed :
  forall world : world,
    (files world DATA_FILE = None ->
     load world =
     (Done [],
      mkworld (fun p => if String.eqb p DATA_FILE then Some (to_csv []) else files world p)
              (screen world)) /\
     to_csv [] = ("date,study_hours,stress_level,sleep_hours,exercise_min" ++ nls)%string /\
     split_on comma "date,study_hours,stress_level,sleep_hours,exercise_min" = columns /\
     List.length columns = 5%nat /\
     read_csv (to_csv []) = Frame []) /\
    (forall txt e,
        files world DATA_FILE = Some txt -> read_csv txt = ReadError e ->
        load world = (Raised e, world)).
Proof using.
  clear draw generator progress_of savefig canvas_save.
  intros world. split.
  - intros Habs. split; [now apply load_absent|]. repeat split; reflexivity.
  - intros txt e Hf He. unfold load, try_except, pd_read_csv. rewrite Hf, He.
    apply read_error_kind in He as [-> | ->]; reflexivity.
Qed.

(** C6, as the claim states it, fails: load is not append, and it writes the
    data file when the file is absent. *)
Lemma load_writes_data_file :
  files (mkworld (fun _ => None) []) DATA_FILE = None /\
  files (snd (load (mkworld (fun _ => None) []))) DATA_FILE =
  Some ("date,study_hours,stress_level,sleep_hours,exercise_min" ++ nls)%string /\
  ~ (forall op, writes_data in_column_order fixed_tip failing_progress fixed_png fixed_pdf op ->
                op = op_append).
Proof using.
  clear draw generator progress_of savefig canvas_save.
  split; [reflexivity|]. split; [reflexivity|].
  intros H. specialize (H op_load). assert (E : op_load = op_append); [|discriminate E].
  apply H.
  exists (Py.mkdate 2026 11 4), day1_inputs, (mkanalysed [] None), (mkworld (fun _ => None) []).
  cbn. discriminate.
Qed.

(** C6, amended.  The operations that write the data file are append and
    load; load writes it only when it is absent.  The analysis tab (stress
    prediction, burnout prediction, charts), the plan generator and the PDF
    export leave it as it was, and so does a whole run without a submission
    on a present file. *)
Theorem data_file_writers :
  (forall op, writes_data draw generator progress_of savefig canvas_save op ->
              op = op_append \/ op = op_load) /\
  (forall world, files world DATA_FILE <> None ->
                 files (snd (load world)) DATA_FILE = files world DATA_FILE) /\
  (forall w df, keeps_data (tab2 draw w df)) /\
  (forall today w df, keeps_data (tab3 generator progress_of today w df)) /\
  (forall w df, keeps_data (tab4 savefig canvas_save w df)) /\
  (forall plt_bound df, keeps_data (export_pdf savefig canvas_save plt_bound df)) /\
  (forall today w world,
      w_submitted w = false -> files world DATA_FILE <> None ->
      files (snd (run draw generator progress_of savefig canvas_save today w world)) DATA_FILE
      = files world DATA_FILE).
Proof using All.
  split; [|split; [|split; [|split; [|split; [|split]]]]].
  - intros op (today & w & df & world & Hw).
    destruct op; auto; exfalso; apply Hw; cbn [exec].
    + apply keeps_bind; [apply keeps_tab2 | intros; apply keeps_ret].
    + apply keeps_tab3.
    + apply keeps_tab4.
  - apply keeps_load_present.
  - apply keeps_tab2.
  - apply keeps_tab3.
  - apply keeps_tab4.
  - apply keeps_export_pdf.
  - intros today w world Hs Hf. unfold run.
    rewrite bind_tail; [now apply keeps_load_present|].
    intros a. apply keeps_bind; [now apply keeps_tab1_idle|]. intros b.
    apply keeps_bind; [apply keeps_tab2|]. intros c.
    apply keeps_bind; [apply keeps_tab3 | intros; apply keeps_tab4].
Qed.

(** C9.  On the two-row log (study 2, stress 3, sleep 8, exercise 20) and
    (study 8, stress 9, sleep 4, exercise 0) the two rows are labelled 0 and
    1, the tree is fitted, and the prediction for today's sleep 4, stress 9
    and study 8 is 1, in whichever order the builder visits the three
    features. *)
Theorem scenario_predicts_burnout :
  forall (day1 day2 : string) (w : widgets) (world : world),
    (forall S, Permutation (draw S) [0; 1; 2]%nat) ->
    burnout_risk (scenario_log day1 day2) = [0; 1] /\
    risk_today draw (scenario_today w) (scenario_log day1 day2) world = (Done (Some 1), world) /\
    In (st_write "Burnout Risk Today: High! Rest up.")
       (screen (snd (tab2 draw (scenario_today w) (scenario_log day1 day2) world))).
Proof using draw.
  clear generator progress_of savefig canvas_save.
  intros day1 day2 w world Hperm.
  assert (Hrisk : forall w0, risk_today draw (scenario_today w) (scenario_log day1 day2) w0
                             = (Done (Some 1), w0)).
  { intros w0. unfold risk_today.
    change (burnout_risk (scenario_log day1 day2)) with [0; 1].
    change (1 <? List.length (nodup Z.eq_dec (0%Z :: 1%Z :: nil)))%nat with true.
    cbv iota.
    unfold Sklearn.DecisionTreeClassifier_fit.
    set (S0 := combine (X_tree (scenario_log day1 day2)) [0; 1]).
    change (List.length S0) with 2%nat. rewrite build_step.
    destruct (three_orders (Hperm S0)) as [E | [E | [E | [E | [E | E]]]]];
      rewrite E; vm_compute; reflexivity. }
  split; [reflexivity|]. split; [apply Hrisk|].
  rewrite (@tab2_long draw (scenario_today w) (scenario_log day1 day2) world (Some 1));
    [|cbn; lia|exact Hrisk].
  cbn [snd screen]. apply in_or_app. right. cbn. auto.
Qed.

(** C7.  The plan generator divides days_left by 4, rounding down, into a
    phase length p and writes four phases, over days 1 to p, p+1 to 2p, 2p+1
    to 3p and 3p+1 to days_left; for days_left at least 1 the first three
    phases have p days and the last has p plus the remainder.  For days_left =
    20 the phases are days 1-5, 6-10, 11-15 and 16-20, of 5 days each. *)
Theorem plan_four_phases :
  forall w : widgets,
    let d := w_days_left w in
    let p := d / 4 in
    plan w =
    ("Personalized " ++ Py.int_repr d ++ "-Day Plan for " ++ w_exam w ++ ":" ++ nls ++
     String.concat ""
       (map (fun bt => phase_line (fst bt) (snd bt))
          (combine (spec_phases d)
             ["Focus on strong subjects (" ++ w_strong_subjects w ++ ") + Basics & PYQs";
              "Tackle weak subjects (" ++ w_weak_subjects w ++ ") + Drills";
              "Mixed mocks + Review";
              "Full revision + Rest"])))%string /\
    spec_phases d = [(1, p); (p + 1, 2 * p); (2 * p + 1, 3 * p); (3 * p + 1, d)] /\
    (1 <= d ->
     0 <= p /\
     map phase_days (spec_phases d) = [p; p; p; p + d mod 4] /\
     p + p + p + (p + d mod 4) = d) /\
    (d = 20 ->
     spec_phases d = [(1, 5); (6, 10); (11, 15); (16, 20)] /\
     map phase_days (spec_phases d) = [5; 5; 5; 5] /\
     plan w =
     ("Personalized 20-Day Plan for " ++ w_exam w ++ ":" ++ nls ++
      "Days 1-5: Focus on strong subjects (" ++ w_strong_subjects w ++ ") + Basics & PYQs" ++ nls ++
      "Days 6-10: Tackle weak subjects (" ++ w_weak_subjects w ++ ") + Drills" ++ nls ++
      "Days 11-15: Mixed mocks + Review" ++ nls ++
      "Days 16-20: Full revision + Rest" ++ nls)%string).
Proof using.
  clear draw generator progress_of savefig canvas_save.
  intros w d p. split; [|split; [reflexivity|split]].
  - unfold plan, spec_phases, phase_line. fold d. fold p.
    cbn [combine map String.concat fst snd].
    repeat rewrite append_assoc_string. reflexivity.
  - intros Hd. unfold spec_phases, phase_days. fold p. cbn [map fst snd].
    pose proof (Z.div_mod d 4 ltac:(lia)) as Hdm. fold p in Hdm.
    pose proof (Z.mod_pos_bound d 4 ltac:(lia)) as Hm.
    generalize dependent (d mod 4). intros r Hdm Hm.
    split; [lia|]. split; [|lia].
    repeat (f_equal; try lia).
  - intros H20. unfold plan, spec_phases. fold d. rewrite H20.
    repeat split; reflexivity.
Qed.

(** C8.  With at least 2 rows and two distinct study_hours values, the
    predicted stress the analysis tab shows is the value at 10 study hours of
    the line fitted to (study_hours, stress_level) over the whole log: the line
    of least sum of squared residuals, and the only one.  The shown value is
    the same whatever page and files the run started from. *)
Theorem stress_prediction_least_squares :
  forall (w : widgets) (df : DataFrame) (world : world) (o1 o2 : Observation),
    (2 <= List.length df)%nat ->
    In o1 df -> In o2 df ->
    ~ (Py.float_val (study_hours o1) == Py.float_val (study_hours o2))%Q ->
    let X := map (fun o => Py.float_val (study_hours o)) df in
    let y := map (fun o => inject_Z (stress_level o)) df in
    let reg := Sklearn.LinearRegression_fit X y in
    In (st_write_pred_stress (pred_stress df)) (screen (snd (tab2 draw w df world))) /\
    (forall q, In (st_write_pred_stress q)
                  (screen (snd (tab2 draw w df (mkworld (files world) [])))) ->
               q = pred_stress df) /\
    (pred_stress df == Sklearn.intercept_ reg + Sklearn.coef_ reg * 10)%Q /\
    (forall a b,
        Sklearn.sq_residuals (Sklearn.intercept_ reg) (Sklearn.coef_ reg) X y
        <= Sklearn.sq_residuals a b X y)%Q /\
    (forall a b,
        (Sklearn.sq_residuals a b X y
         <= Sklearn.sq_residuals (Sklearn.intercept_ reg) (Sklearn.coef_ reg) X y)%Q ->
        (a == Sklearn.intercept_ reg /\ b == Sklearn.coef_ reg)%Q).
Proof using draw.
  clear generator progress_of savefig canvas_save.
  intros w df world o1 o2 Hlen H1 H2 Hne X y reg.
  destruct (risk_today_value draw w df) as (risk & Hrun & _).
  set (pair_of := fun o : Observation =>
                    (Py.float_val (study_hours o), inject_Z (stress_level o))).
  assert (HX : X = map fst (map pair_of df)) by (unfold X; now rewrite map_map).
  assert (Hy : y = map snd (map pair_of df)) by (unfold y; now rewrite map_map).
  assert (Hin1 : In (pair_of o1) (map pair_of df)) by now apply in_map.
  assert (Hin2 : In (pair_of o2) (map pair_of df)) by now apply in_map.
  split; [|split; [|split; [|split]]].
  - rewrite (@tab2_long draw w df world risk Hlen Hrun). cbn [snd screen].
    apply in_or_app. right. cbn. auto.
  - intros q. rewrite (@tab2_long draw w df _ risk Hlen Hrun). cbn [snd screen app].
    destruct risk; cbn; intros Hq;
      repeat match goal with
             | H : _ \/ _ |- _ => destruct H
             | H : st_write_pred_stress _ = st_write_pred_stress _ |- _ =>
                 injection H as <-
             end; try discriminate; try contradiction; reflexivity.
  - unfold pred_stress, Sklearn.linear_predict. fold X y reg. ring.
  - intros a b. unfold reg. rewrite HX, Hy.
    exact (@RegressionFacts.fit_least _ _ _ Hin1 Hin2 Hne a b).
  - intros a b. unfold reg. rewrite HX, Hy.
    exact (@RegressionFacts.fit_unique _ _ _ Hin1 Hin2 Hne a b).
Qed.

(** C10.  The date stored by an append is the calendar date of the run,
    written as YYYY-MM-DD, whatever the widgets hold; two submissions on the
    same day add two rows with the same date, and both stay in the log. *)
Theorem stored_date_is_today :
  forall (today : Py.date) (w1 w2 : widgets) (fs : string -> option string) (df : DataFrame),
    holds fs df ->
    widgets_ok w1 = true -> widgets_ok w2 = true ->
    w_submitted w1 = true -> w_submitted w2 = true ->
    date (new_data today w1) = Py.strftime_Ymd today /\
    (forall w', date (new_data today w') = date (new_data today w1)) /\
    Py.iso_shape (date (new_data today w1)) = true /\
    (Py.date_ok today = true -> Py.read_Ymd (date (new_data today w1)) = Some today) /\
    fst (load (mkworld (session draw generator progress_of savefig canvas_save
                          [(today, w1); (today, w2)] fs) []))
    = Done (df ++ [new_data today w1; new_data today w2]) /\
    date (new_data today w1) = date (new_data today w2).
Proof using All.
  intros today w1 w2 fs df Hh Hw1 Hw2 Hs1 Hs2.
  split; [reflexivity|]. split; [reflexivity|].
  split; [apply iso_shape_strftime|]. split; [apply read_Ymd_strftime|].
  split; [|reflexivity].
  assert (Hall : Forall (fun e : Py.date * widgets => widgets_ok (snd e) = true)
                        [(today, w1); (today, w2)]) by (repeat constructor; assumption).
  pose proof (@session_holds draw generator progress_of savefig canvas_save
                _ fs df Hh Hall) as Hfinal.
  unfold appended in Hfinal. cbn [filter snd fst map] in Hfinal.
  rewrite Hs1, Hs2 in Hfinal. cbn [map fst snd] in Hfinal.
  destruct (@load_holds _ [] _ Hfinal) as (w' & Hload & _).
  now rewrite Hload.
Qed.

(** C1.  Starting from an empty log (no data file, or a file with the header
    only), after any sequence of runs with valid widget values the reloaded
    table is exactly the submitted rows, in the order of submission, each
    with the submitted field values; after N submissions it has N rows, and
    further runs only extend it. *)
Theorem log_round_trip :
  forall (events : list (Py.date * widgets)) (fs : string -> option string),
    fs DATA_FILE = None \/ fs DATA_FILE = Some (to_csv []) ->
    Forall (fun e => widgets_ok (snd e) = true) events ->
    let reload evs :=
      fst (load (mkworld (session draw generator progress_of savefig canvas_save evs fs) [])) in
    reload events = Done (appended events) /\
    (Forall (fun e => w_submitted (snd e) = true) events ->
     appended events = map (fun e => new_data (fst e) (snd e)) events /\
     List.length (appended events) = List.length events) /\
    (forall today w,
        study_hours (new_data today w) = w_study_hours w /\
        stress_level (new_data today w) = w_stress_level w /\
        sleep_hours (new_data today w) = w_sleep_hours w /\
        exercise_min (new_data today w) = w_exercise_min w) /\
    (forall more,
        Forall (fun e => widgets_ok (snd e) = true) more ->
        reload (events ++ more) = Done (appended events ++ appended more)).
Proof using All.
  intros events fs Hfs Hall reload.
  assert (Hempty : holds fs []).
  { split; [|constructor]. destruct Hfs; [right | left]; auto. }
  assert (Hreload : forall evs, Forall (fun e => widgets_ok (snd e) = true) evs ->
                                reload evs = Done (appended evs)).
  { intros evs Hevs.
    pose proof (@session_holds draw generator progress_of savefig canvas_save
                  evs fs [] Hempty Hevs) as Hfinal.
    cbn [app] in Hfinal.
    destruct (@load_holds _ [] _ Hfinal) as (w' & Hload & _).
    unfold reload. now rewrite Hload. }
  split; [now apply Hreload|]. split; [|split].
  - intros Hsub.
    assert (E : filter (fun e : Py.date * widgets => w_submitted (snd e)) events = events).
    { clear -Hsub. induction Hsub as [|e l He _ IH]; cbn; [reflexivity|].
      now rewrite He, IH. }
    unfold appended. rewrite E. split; [reflexivity | apply length_map].
  - intros today w. repeat split; reflexivity.
  - intros more Hmore. rewrite Hreload by (apply Forall_app; auto).
    unfold appended. now rewrite filter_app, map_app.
Qed.

End Claims.

(* ================================================================= *)
(** * Worked instances *)

(** Two submissions on a directory without a data file are read back in
    order. *)
Lemma log_round_trip_witness :
  fst (App.load
         (App.mkworld
            (App.session App.in_column_order App.fixed_tip App.failing_progress
               App.fixed_png App.fixed_pdf
               [(Py.mkdate 2026 11 3, App.day1_inputs); (Py.mkdate 2026 11 4, App.day2_inputs)]
               (fun _ => None))
            []))
  = App.Done
      (App.appended
         [(Py.mkdate 2026 11 3, App.day1_inputs); (Py.mkdate 2026 11 4, App.day2_inputs)]).
Proof.
  refine (proj1 (@log_round_trip App.in_column_order App.fixed_tip App.failing_progress
                   App.fixed_png App.fixed_pdf
                   [(Py.mkdate 2026 11 3, App.day1_inputs); (Py.mkdate 2026 11 4, App.day2_inputs)]
                   (fun _ => None) _ _)).
  - left. reflexivity.
  - repeat constructor.
Defined.

(** On the scenario log the shown prediction is the least-squares value. *)
Lemma stress_prediction_least_squares_witness :
  In (App.st_write_pred_stress (App.pred_stress (App.scenario_log "2026-11-03" "2026-11-04")))
     (App.screen
        (snd (App.tab2 App.in_column_order App.day2_inputs
                (App.scenario_log "2026-11-03" "2026-11-04")
                (App.mkworld (fun _ => None) [])))).
Proof.
  refine (proj1 (@stress_prediction_least_squares App.in_column_order App.day2_inputs
                   (App.scenario_log "2026-11-03" "2026-11-04")
                   (App.mkworld (fun _ => None) [])
                   (Csv.mkobs "2026-11-03" (Py.float_lit "2.0") 3 (Py.float_lit "8.0") 20)
                   (Csv.mkobs "2026-11-04" (Py.float_lit "8.0") 9 (Py.float_lit "4.0") 0)
                   _ _ _ _)).
  - cbn. lia.
  - left. reflexivity.
  - right. left. reflexivity.
  - intros H. vm_compute in H. discriminate H.
Defined.

(** The scenario with the features visited in column order. *)
Lemma scenario_predicts_burnout_witness :
  App.risk_today App.in_column_order (App.scenario_today App.day1_inputs)
    (App.scenario_log "2026-11-03" "2026-11-04") (App.mkworld (fun _ => None) [])
  = (App.Done (Some 1), App.mkworld (fun _ => None) []).
Proof.
  refine (proj1 (proj2 (@scenario_predicts_burnout App.in_column_order
                          "2026-11-03" "2026-11-04" App.day1_inputs
                          (App.mkworld (fun _ => None) []) _))).
  intros S. apply Permutation_refl.
Defined.

(** Two submissions on 2026-11-04 on a directory without a data file. *)
Lemma stored_date_is_today_witness :
  fst (App.load
         (App.mkworld
            (App.session App.in_column_order App.fixed_tip App.failing_progress
               App.fixed_png App.fixed_pdf
               [(Py.mkdate 2026 11 4, App.day1_inputs); (Py.mkdate 2026 11 4, App.day2_inputs)]
               (fun _ => None))
            []))
  = App.Done
      [App.new_data (Py.mkdate 2026 11 4) App.day1_inputs;
       App.new_data (Py.mkdate 2026 11 4) App.day2_inputs].
Proof.
  refine (proj1 (proj2 (proj2 (proj2 (proj2
            (@stored_date_is_today App.in_column_order App.fixed_tip App.failing_progress
               App.fixed_png App.fixed_pdf (Py.mkdate 2026 11 4)
               App.day1_inputs App.day2_inputs (fun _ => None) [] _ _ _ _ _)))))).
  - split; [right; split; reflexivity | constructor].
  - reflexivity.
  - reflexivity.
  - reflexivity.
  - reflexivity.
Defined.

(** The analysis tab on the empty log and on the scenario log. *)
Lemma stress_prediction_guard_witness :
  App.tab2 App.in_column_order App.day1_inputs [] (App.mkworld (fun _ => None) [])
  = (App.Done (App.mkanalysed [] None),
     App.mkworld (fun _ => None)
       [App.st_header "Analysis & Insights";
        App.st_warning "Enter at least 2 days of data for analysis."]) /\
  exists rest,
    App.tab2 App.in_column_order App.day2_inputs
      (App.scenario_log "2026-11-03" "2026-11-04") (App.mkworld (fun _ => None) [])
    = (App.Done (App.mkanalysed (App.scenario_log "2026-11-03" "2026-11-04")
                   (Some [0; 1])),
       App.mkworld (fun _ => None)
         (App.st_header "Analysis & Insights"
          :: App.st_write_pred_stress
               (App.pred_stress (App.scenario_log "2026-11-03" "2026-11-04"))
          :: rest)).
Proof.
  split.
  - refine (proj1 (stress_prediction_guard App.in_column_order App.day1_inputs []
                     (App.mkworld (fun _ => None) [])) _).
    cbn. lia.
  - destruct (proj2 (stress_prediction_guard App.in_column_order App.day2_inputs
                       (App.scenario_log "2026-11-03" "2026-11-04")
                       (App.mkworld (fun _ => None) []))
                ltac:(cbn; lia)) as (rest & E & _).
    exists rest. exact E.
Defined.

(** The burnout prediction is fitted on the scenario log, whose labels
    differ. *)
Lemma burnout_prediction_guard_witness :
  exists m r,
    Sklearn.DecisionTreeClassifier_fit App.in_column_order
      (App.X_tree (App.scenario_log "2026-11-03" "2026-11-04"))
      (App.burnout_risk (App.scenario_log "2026-11-03" "2026-11-04")) = Some m /\
    (r = 0 \/ r = 1).
Proof.
  destruct (proj2 (proj2 (burnout_prediction_guard App.in_column_order App.day2_inputs
                            (App.scenario_log "2026-11-03" "2026-11-04")
                            (App.mkworld (fun _ => None) []))))
    as (m & r & Hm & _ & Hr & _).
  - intros Hsame.
    specialize (Hsame 0 1 (or_introl eq_refl) (or_intror (or_introl eq_refl))).
    discriminate Hsame.
  - exists m, r. split; assumption.
Defined.

(** Load without a data file, on an empty data file and on a file with a
    row that is too long. *)
Lemma load_missing_or_malformed_witness :
  fst (App.load (App.mkworld (fun _ => None) [])) = App.Done [] /\
  App.load (App.mkworld (fun _ => Some ""%string) [])
  = (App.Raised Csv.EmptyDataError, App.mkworld (fun _ => Some ""%string) []) /\
  App.load (App.mkworld (fun _ => Some App.long_row_file) [])
  = (App.Raised Csv.ParserError, App.mkworld (fun _ => Some App.long_row_file) []).
Proof.
  split; [|split].
  - rewrite (proj1 (proj1 (load_missing_or_malformed (App.mkworld (fun _ => None) []))
                      eq_refl)).
    reflexivity.
  - refine (proj2 (load_missing_or_malformed (App.mkworld (fun _ => Some ""%string) []))
              ""%string Csv.EmptyDataError _ _); reflexivity.
  - refine (proj2 (load_missing_or_malformed
                     (App.mkworld (fun _ => Some App.long_row_file) []))
              App.long_row_file Csv.ParserError _ _); reflexivity.
Defined.

(** Load is one of the two writers. *)
Lemma data_file_writers_witness :
  App.op_load = App.op_append \/ App.op_load = App.op_load.
Proof.
  refine (proj1 (data_file_writers App.in_column_order App.fixed_tip App.failing_progress
                   App.fixed_png App.fixed_pdf) App.op_load _).
  exists (Py.mkdate 2026 11 4), App.day1_inputs, (App.mkanalysed [] None),
    (App.mkworld (fun _ => None) []).
  cbn. discriminate.
Defined.

(** The plan of a 20-day count. *)
Lemma plan_four_phases_witness :
  App.spec_phases 20 = [(1, 5); (6, 10); (11, 15); (16, 20)] /\
  map App.phase_days (App.spec_phases 20) = [5; 5; 5; 5 + 20 mod 4].
Proof.
  split.
  - exact (proj1 (proj2 (proj2 (proj2 (plan_four_phases App.day1_inputs))) eq_refl)).
  - exact (proj1 (proj2 (proj1 (proj2 (proj2 (plan_four_phases App.day1_inputs)))
                           ltac:(cbn; lia)))).
Defined.

(* ================================================================= *)
(** * Further properties of the script *)

Module LogFacts.

Import Csv App Log CellFacts CsvFacts AppFacts AnalysisFacts.
Local Open Scope string_scope.
Local Open Scope list_scope.

Lemma float_parse_printable s x : Py.float_parse s = Some x -> Py.printable x = true.
Proof.
  unfold Py.float_parse.
  destruct (Py.cut "." s) as [[i f]|]; [|discriminate].
  destruct (NilEmpty.int_of_string i) as [i'|]; [|discriminate].
  destruct (NilEmpty.uint_of_string f) as [f'|]; [|discriminate].
  destruct (Py.printable (Py.mkfloat i' f')) eqn:E; [|discriminate].
  now intros [= <-].
Qed.

Lemma parse_row_ok line o : parse_row line = Some o -> row_ok o = true.
Proof.
  unfold parse_row.
  destruct (split_on comma line) as [|d [|a [|b [|c [|e [|? ?]]]]]]; try discriminate.
  destruct (Py.iso_shape d) eqn:Hd; [|discriminate].
  destruct (Py.float_parse a) as [a'|] eqn:Ha; [|discriminate].
  destruct (Py.int_parse b) as [b'|]; [|discriminate].
  destruct (Py.float_parse c) as [c'|] eqn:Hc; [|discriminate].
  destruct (Py.int_parse e) as [e'|]; [|discriminate].
  intros [= <-]. unfold row_ok. cbn [date study_hours sleep_hours].
  now rewrite Hd, (float_parse_printable _ Ha), (float_parse_printable _ Hc).
Qed.

Lemma parse_rows_ok : forall ls df,
  parse_rows ls = Some df -> Forall (fun o => row_ok o = true) df.
Proof.
  induction ls as [|l ls IH]; cbn [parse_rows]; intros df.
  - intros [= <-]. constructor.
  - destruct (parse_row l) as [o|] eqn:Ho; [|discriminate].
    destruct (parse_rows ls) as [df'|]; [|discriminate].
    intros [= <-]. constructor; [now apply (parse_row_ok l) | now apply IH].
Qed.

(** Every row [read_csv] returns is one [to_csv] writes back unchanged. *)
Lemma read_frame_ok txt df :
  read_csv txt = Frame df -> Forall (fun o => row_ok o = true) df.
Proof.
  unfold read_csv.
  destruct (has_char dquote txt || has_char cr txt); [discriminate|].
  destruct (read_lines txt) as [|header body]; [discriminate|].
  destruct (too_many_fields header body); [discriminate|].
  destruct (list_string_eqb _ _); [|discriminate].
  destruct (parse_rows body) as [df'|] eqn:E; [|discriminate].
  intros [= <-]. now apply (parse_rows_ok body).
Qed.

Lemma load_read_error w txt e :
  files w DATA_FILE = Some txt -> read_csv txt = ReadError e -> load w = (Raised e, w).
Proof.
  intros Hf He. unfold load, try_except, pd_read_csv. rewrite Hf, He.
  apply read_error_kind in He as [-> | ->]; reflexivity.
Qed.

Lemma holds_reads_as fs df : holds fs df -> reads_as fs df.
Proof.
  intros [[Hf | [-> Hf]] Hok].
  - right. exists (to_csv df). split; [assumption | now apply read_to_csv].
  - left. now split.
Qed.

Lemma load_reads_as fs scr df :
  reads_as fs df ->
  exists w', load (mkworld fs scr) = (Done df, w') /\ screen w' = scr /\
             reads_as (files w') df /\
             (forall path, path <> DATA_FILE -> files w' path = fs path).
Proof.
  intros [[Hf ->] | (txt & Hf & Hr)].
  - eexists. split; [now apply load_absent|]. cbn [screen files].
    split; [reflexivity|]. split.
    + right. exists (to_csv []). split; [reflexivity | now apply read_to_csv].
    + intros path Hp. destruct (String.eqb_spec path DATA_FILE); congruence.
  - exists (mkworld fs scr). split.
    + unfold load, try_except, pd_read_csv. cbn [files]. now rewrite Hf, Hr.
    + split; [reflexivity|]. split; [|reflexivity].
      right. now exists txt.
Qed.

Section Run.

Variable draw : list Sklearn.sample -> list nat.
Variable generator : string -> string + exn.
Variable progress_of : Py.date -> list string -> Z -> Q + exn.
Variable savefig : list string -> list Z -> string.
Variable canvas_save : nat -> string -> string.

Lemma run_data_file today w w0 df w' :
  load w0 = (Done df, w') ->
  files (snd (run draw generator progress_of savefig canvas_save today w w0)) DATA_FILE =
  if w_submitted w then Some (to_csv (df ++ [new_data today w])) else files w' DATA_FILE.
Proof.
  intros Hload. unfold run. unfold bind at 1. rewrite Hload.
  rewrite bind_tail.
  - apply tab1_data.
  - intros a. apply keeps_bind; [apply keeps_tab2|]. intros b.
    apply keeps_bind; [apply keeps_tab3 | intros; apply keeps_tab4].
Qed.

Lemma run_reads_as today w fs scr df :
  reads_as fs df -> widgets_ok w = true ->
  reads_as (files (snd (run draw generator progress_of savefig canvas_save today w
                          (mkworld fs scr))))
           (if w_submitted w then df ++ [new_data today w] else df).
Proof.
  intros Hr Hw.
  destruct (@load_reads_as fs scr df Hr) as (w' & Hload & _ & Hr' & _).
  pose proof (@run_data_file today w _ _ _ Hload) as Hfile.
  destruct (w_submitted w).
  - right. exists (to_csv (df ++ [new_data today w])). split; [assumption|].
    apply read_to_csv. apply Forall_app. split.
    + destruct Hr as [[_ ->] | (txt & _ & Hf)]; [constructor | now apply (read_frame_ok txt)].
    + constructor; [now apply row_ok_new_data | constructor].
  - destruct Hr' as [[Hn ->] | (txt & Hf & Hread)].
    + left. split; [congruence | reflexivity].
    + right. exists txt. split; [congruence | assumption].
Qed.

Lemma session_reads_as events : forall fs df,
  reads_as fs df -> Forall (fun e => widgets_ok (snd e) = true) events ->
  reads_as (session draw generator progress_of savefig canvas_save events fs)
           (df ++ appended events).
Proof.
  induction events as [|[today w] events IH]; intros fs df Hr Hall.
  - cbn. now rewrite app_nil_r.
  - inversion Hall as [|? ? Hw Hrest]; subst. cbn [session snd fst] in *.
    pose proof (@run_reads_as today w fs [] df Hr Hw) as Hrun.
    specialize (IH _ _ Hrun Hrest).
    unfold appended in *. cbn [filter snd].
    destruct (w_submitted w); cbn [map fst snd].
    + now rewrite <- app_assoc in IH.
    + assumption.
Qed.

End Run.

End LogFacts.

Section Persistence.

Import Csv App Log CellFacts CsvFacts AppFacts AnalysisFacts LogFacts.
Local Open Scope string_scope.
Local Open Scope list_scope.

Variable draw : list Sklearn.sample -> list nat.
Variable generator : string -> string + exn.
Variable progress_of : Py.date -> list string -> Z -> Q + exn.
Variable savefig : list string -> list Z -> string.
Variable canvas_save : nat -> string -> string.


(** X2.  When [read_csv] raises on the data file, every run stops at the
    reload with that exception: nothing is put on the page, a submitted row
    is not appended, and no file changes, however many runs follow. *)
Theorem unreadable_file_stops_every_run :
  forall (today : Py.date) (w : widgets) (fs : string -> option string) (scr : list ui)
         (txt : string) (e : exn),
    fs DATA_FILE = Some txt -> read_csv txt = ReadError e ->
    run draw generator progress_of savefig canvas_save today w (mkworld fs scr)
    = (Raised e, mkworld fs scr) /\
    forall events, session draw generator progress_of savefig canvas_save events fs = fs.
Proof using All.
  intros today w fs scr txt e Hf He.
  assert (Hrun : forall today w scr,
             run draw generator progress_of savefig canvas_save today w (mkworld fs scr)
             = (Raised e, mkworld fs scr)).
  { intros today' w' scr'. unfold run. unfold bind at 1.
    rewrite (@load_read_error (mkworld fs scr') txt e Hf He).
    reflexivity. }
  split; [apply Hrun|].
  induction events as [|[today' w'] events IH]; [reflexivity|].
  cbn [session]. rewrite Hrun. exact IH.
Qed.

End Persistence.

Module RunFacts.

Import Csv App Log CellFacts CsvFacts AppFacts AnalysisFacts LogFacts.
Local Open Scope string_scope.
Local Open Scope list_scope.

Lemma only_data_ret A (a : A) : writes_only_data (ret a).
Proof. intros w path _. reflexivity. Qed.

Lemma only_data_raise A e : writes_only_data (@raise A e).
Proof. intros w path _. reflexivity. Qed.

Lemma only_data_emit u : writes_only_data (emit u).
Proof. intros w path _. reflexivity. Qed.

Lemma only_data_lift A (r : A + exn) : writes_only_data (lift r).
Proof. destruct r; [apply only_data_ret | apply only_data_raise]. Qed.

Lemma only_data_write content : writes_only_data (write_file DATA_FILE content).
Proof.
  intros w path Hp. cbn [write_file snd files].
  destruct (String.eqb_spec path DATA_FILE); [contradiction | reflexivity].
Qed.

Lemma only_data_bind A B (c : script A) (k : A -> script B) :
  writes_only_data c -> (forall a, writes_only_data (k a)) -> writes_only_data (bind c k).
Proof.
  intros Hc Hk w path Hp. unfold bind. specialize (Hc w path Hp).
  destruct (c w) as [[a | e |] w']; cbn [snd] in *; [|assumption..].
  now rewrite Hk.
Qed.

Lemma only_data_load : writes_only_data load.
Proof.
  intros w path Hp. unfold load, try_except, pd_read_csv.
  destruct (files w DATA_FILE) as [txt|].
  - destruct (read_csv txt) as [df | e |] eqn:R; try reflexivity.
    apply read_error_kind in R as [-> | ->]; reflexivity.
  - cbn [snd files bind df_to_csv write_file ret].
    destruct (String.eqb_spec path DATA_FILE); [contradiction | reflexivity].
Qed.

Lemma only_data_tab1 today w df : writes_only_data (tab1 today w df).
Proof.
  unfold tab1, df_to_csv.
  apply only_data_bind; [apply only_data_emit | intros _].
  destruct (w_submitted w); [|apply only_data_ret].
  apply only_data_bind; [apply only_data_write | intros _].
  apply only_data_bind; [apply only_data_emit | intros _; apply only_data_ret].
Qed.

(** The export tab as the script has it: the name [plt] is not bound. *)
Lemma tab4_result savefig canvas_save w df world :
  tab4 savefig canvas_save w df world =
  (if w_generate_pdf w then Raised (NameError "plt") else Done tt,
   mkworld (files world) (screen world ++ [st_header "Export Report as PDF"])).
Proof.
  unfold tab4. change (name_bound "plt") with false.
  destruct (w_generate_pdf w); reflexivity.
Qed.

Lemma tab1_result today w df world :
  exists world',
    tab1 today w df world =
    (Done (if w_submitted w then df ++ [new_data today w] else df), world').
Proof.
  unfold tab1. destruct (w_submitted w); eexists; reflexivity.
Qed.

Section Run.

Variable draw : list Sklearn.sample -> list nat.
Variable generator : string -> string + exn.
Variable progress_of : Py.date -> list string -> Z -> Q + exn.
Variable savefig : list string -> list Z -> string.
Variable canvas_save : nat -> string -> string.

(** The analysis tab completes on every table and returns its rows. *)
Lemma tab2_result w df world :
  exists adf world',
    tab2 draw w df world = (Done adf, world') /\ rows adf = df /\
    files world' = files world.
Proof.
  destruct (Nat.lt_ge_cases (List.length df) 2) as [Hlen | Hlen].
  - do 2 eexists. split; [apply (@tab2_short draw w df world Hlen)|]. now split.
  - destruct (risk_today_value draw w df) as (risk & Hrun & _).
    do 2 eexists. split; [apply (@tab2_long draw w df world risk Hlen Hrun)|]. now split.
Qed.

Lemma only_data_tab2 w df : writes_only_data (tab2 draw w df).
Proof.
  intros world path _.
  destruct (tab2_result w df world) as (adf & world' & -> & _ & Hf).
  cbn [snd]. now rewrite Hf.
Qed.

Lemma only_data_tab3 today w df : writes_only_data (tab3 generator progress_of today w df).
Proof.
  unfold tab3.
  apply only_data_bind; [apply only_data_emit | intros _].
  destruct (w_generate_plan w); [|apply only_data_ret].
  apply only_data_bind; [apply only_data_lift | intros tips].
  apply only_data_bind; [apply only_data_emit | intros _].
  destruct (0 <? List.length (rows df))%nat; [|apply only_data_emit].
  apply only_data_bind; [apply only_data_lift | intros progress].
  apply only_data_bind; [apply only_data_emit | intros _; apply only_data_emit].
Qed.

(** The plan tab fails only with the exception of the text generator or of
    the progress line, which it reaches when the log is not empty. *)
Lemma tab3_result today w df world :
  exists world',
    tab3 generator progress_of today w df world =
    (if w_generate_plan w then
       match generator (prompt w) with
       | inr e => Raised e
       | inl _ =>
           if (0 <? List.length (rows df))%nat then
             match progress_of today (map date (rows df)) (w_days_left w) with
             | inr e => Raised e
             | inl _ => Done tt
             end
           else Done tt
       end
     else Done tt, world').
Proof.
  unfold tab3, bind, emit.
  destruct (w_generate_plan w); [|eexists; reflexivity].
  destruct (generator (prompt w)) as [tips | e]; cbn [lift ret raise];
    [|eexists; reflexivity].
  destruct (0 <? List.length (rows df))%nat; [|eexists; reflexivity].
  destruct (progress_of today (map date (rows df)) (w_days_left w)) as [p | e];
    cbn [lift ret raise]; eexists; reflexivity.
Qed.

Lemma only_data_tab4 w df : writes_only_data (tab4 savefig canvas_save w df).
Proof.
  intros world path _. now rewrite tab4_result.
Qed.

Lemma only_data_run today w :
  writes_only_data (run draw generator progress_of savefig canvas_save today w).
Proof.
  unfold run.
  apply only_data_bind; [apply only_data_load | intros df].
  apply only_data_bind; [apply only_data_tab1 | intros df'].
  apply only_data_bind; [apply only_data_tab2 | intros adf].
  apply only_data_bind; [apply only_data_tab3 | intros _; apply only_data_tab4].
Qed.

End Run.

Lemma plan_lines w :
  plan w =
  ("Personalized " ++ Py.int_repr (w_days_left w) ++ "-Day Plan for " ++ w_exam w ++ ":" ++ nls ++
   String.concat ""
     (map (fun bt => phase_line (fst bt) (snd bt))
        (combine (spec_phases (w_days_left w))
           ["Focus on strong subjects (" ++ w_strong_subjects w ++ ") + Basics & PYQs";
            "Tackle weak subjects (" ++ w_weak_subjects w ++ ") + Drills";
            "Mixed mocks + Review";
            "Full revision + Rest"])))%string.
Proof.
  unfold plan, spec_phases, phase_line.
  cbn [combine map String.concat fst snd].
  repeat rewrite append_assoc_string. reflexivity.
Qed.

Lemma map_seq_shift (a : Z) (n : nat) : forall m s,
  map (fun i => a + Z.of_nat i) (seq (n + s) m) =
  map (fun i => a + Z.of_nat n + Z.of_nat i) (seq s m).
Proof.
  induction m as [|m IH]; intros s; cbn [seq map]; [reflexivity|].
  f_equal; [lia|]. rewrite <- IH. f_equal. f_equal. lia.
Qed.

Lemma days_from_app a n m :
  days_from a (n + m) = days_from a n ++ days_from (a + Z.of_nat n) m.
Proof.
  unfold days_from. rewrite seq_app, map_app. f_equal.
  rewrite Nat.add_0_l. rewrite <- (Nat.add_0_r n) at 1. apply map_seq_shift.
Qed.

Lemma In_days_from a n x : In x (days_from a n) <-> a <= x < a + Z.of_nat n.
Proof.
  unfold days_from. rewrite in_map_iff. split.
  - intros (i & <- & Hi). apply in_seq in Hi. lia.
  - intros Hx. exists (Z.to_nat (x - a)). split; [lia|]. apply in_seq. lia.
Qed.

Lemma In_phase_range b x : In x (phase_range b) <-> fst b <= x <= snd b.
Proof.
  unfold phase_range. rewrite In_days_from. lia.
Qed.

Lemma NoDup_days_from a n : NoDup (days_from a n).
Proof.
  unfold days_from. apply Injective_map_NoDup; [|apply seq_NoDup].
  intros i j. lia.
Qed.

End RunFacts.

Section Runs.

Import Csv App Log CellFacts CsvFacts AppFacts AnalysisFacts LogFacts RunFacts.
Local Open Scope string_scope.
Local Open Scope list_scope.

Variable draw : list Sklearn.sample -> list nat.
Variable generator : string -> string + exn.
Variable progress_of : Py.date -> list string -> Z -> Q + exn.
Variable savefig : list string -> list Z -> string.
Variable canvas_save : nat -> string -> string.

(** X3.  Reloading twice is reloading once: the second load returns what the
    first returned (table or exception) and changes no file, so the header is
    written at most once, by the load that found no data file. *)
Theorem load_twice :
  forall world : world, load (snd (load world)) = (fst (load world), snd (load world)).
Proof using.
  clear draw generator progress_of savefig canvas_save.
  intros world.
  destruct (files world DATA_FILE) as [txt|] eqn:Hf.
  - assert (E : load world = (fst (load world), world)).
    { unfold load, try_except, pd_read_csv. rewrite Hf.
      destruct (read_csv txt) as [df | e |] eqn:R; try reflexivity.
      apply read_error_kind in R as [-> | ->]; reflexivity. }
    rewrite E. cbn [fst snd]. exact E.
  - rewrite (load_absent world Hf). cbn [fst snd].
    apply load_present; [|constructor].
    cbn [files]. now rewrite String.eqb_refl.
Qed.

(** X4.  No run writes a file other than the data file, whatever buttons are
    pressed and whatever the collaborators return: in particular the PDF
    export, which stops at the unbound name plt, never creates report.pdf or
    stress.png. *)
Theorem run_writes_only_data_file :
  forall (today : Py.date) (w : widgets) (world : world) (path : string),
    path <> DATA_FILE ->
    files (snd (run draw generator progress_of savefig canvas_save today w world)) path
    = files world path.
Proof using All.
  intros today w world path Hp. now apply only_data_run.
Qed.


(** X6.  For every days_left of at least 1 the four phases of the plan cover
    each day from 1 to days_left exactly once, in order.  Below 4 days the
    first three phases are empty (the plan reads "Days 1-0" for each of them)
    and the last phase has all the days; from 4 days on every phase has at
    least days_left // 4 >= 1 days. *)
Theorem plan_covers_each_day_once :
  forall w : widgets,
    let d := w_days_left w in
    let p := d / 4 in
    1 <= d ->
    plan w =
    ("Personalized " ++ Py.int_repr d ++ "-Day Plan for " ++ w_exam w ++ ":" ++ nls ++
     String.concat ""
       (map (fun bt => phase_line (fst bt) (snd bt))
          (combine (spec_phases d)
             ["Focus on strong subjects (" ++ w_strong_subjects w ++ ") + Basics & PYQs";
              "Tackle weak subjects (" ++ w_weak_subjects w ++ ") + Drills";
              "Mixed mocks + Review";
              "Full revision + Rest"])))%string /\
    List.concat (map phase_range (spec_phases d)) = phase_range (1, d) /\
    (forall x, In x (phase_range (1, d)) <-> 1 <= x <= d) /\
    NoDup (phase_range (1, d)) /\
    (d < 4 ->
     map phase_range (spec_phases d) = [[]; []; []; phase_range (1, d)] /\
     map (fun b => days (fst b) (snd b)) (spec_phases d)
     = ["Days 1-0: "; "Days 1-0: "; "Days 1-0: "; days 1 d]%string) /\
    (4 <= d ->
     1 <= p /\
     Forall (fun b => p <= Z.of_nat (List.length (phase_range b))) (spec_phases d)).
Proof using.
  clear draw generator progress_of savefig canvas_save.
  intros w d p Hd.
  pose proof (Z.div_mod d 4 ltac:(lia)) as Hdm. fold p in Hdm.
  pose proof (Z.mod_pos_bound d 4 ltac:(lia)) as Hm.
  generalize dependent (d mod 4). intros r Hdm Hm.
  assert (Hp : 0 <= p) by lia.
  split; [apply plan_lines|].
  split; [|split; [apply In_phase_range|split; [apply NoDup_days_from|split]]].
  - unfold spec_phases, phase_range. fold p. cbn [map List.concat fst snd]. rewrite app_nil_r.
    replace (Z.to_nat (d - 1 + 1)) with (Z.to_nat p + (Z.to_nat p + (Z.to_nat p + Z.to_nat (d - 3 * p))))%nat by lia.
    rewrite !days_from_app.
    repeat (f_equal; try lia).
  - intros Hlt. assert (p = 0) by lia.
    unfold spec_phases. fold p. rewrite H. cbn [map fst snd Z.mul Z.add].
    split; reflexivity.
  - intros Hge. split; [lia|].
    unfold spec_phases. fold p.
    repeat constructor; unfold phase_range, days_from;
      rewrite length_map, length_seq; cbn [fst snd]; lia.
Qed.

(** X7.  The date string of a row identifies the day of its submission: two
    appends store the same date exactly when they were made on the same
    calendar day, whatever the widgets held. *)
Theorem date_identifies_day :
  forall (d1 d2 : Py.date) (w1 w2 : widgets),
    Py.date_ok d1 = true -> Py.date_ok d2 = true ->
    (date (new_data d1 w1) = date (new_data d2 w2) <-> d1 = d2).
Proof using.
  clear draw generator progress_of savefig canvas_save.
  intros d1 d2 w1 w2 H1 H2. cbn [new_data date]. split; [|now intros ->].
  intros E. apply read_Ymd_strftime in H1, H2. rewrite E in H1. congruence.
Qed.

End Runs.

Module LineFacts.

Import Sklearn RegressionFacts.
Local Open Scope Q_scope.

Lemma qsum_zero (r : Q * Q -> Q) ps :
  (forall p, In p ps -> r p == 0) -> qsum (map (fun p => r p * r p) ps) == 0.
Proof.
  induction ps as [|p ps IH]; intros H; cbn [map qsum fold_right]; [reflexivity|].
  fold (qsum (map (fun p => r p * r p) ps)).
  rewrite IH by (intros q Hq; apply H; now right).
  rewrite (H p) by now left. ring.
Qed.

(** Data that lie on a line are fitted by that line. *)
Lemma fit_exact (ps : list (Q * Q)) p1 p2 a b :
  In p1 ps -> In p2 ps -> ~ fst p1 == fst p2 ->
  (forall p, In p ps -> snd p == a + b * fst p) ->
  a == intercept_ (LinearRegression_fit (map fst ps) (map snd ps)) /\
  b == coef_ (LinearRegression_fit (map fst ps) (map snd ps)).
Proof.
  intros H1 H2 Hne Hline.
  apply (@fit_unique ps p1 p2 H1 H2 Hne).
  rewrite (sq_residuals_pairs a b).
  rewrite (qsum_zero (fun p => snd p - (a + b * fst p))).
  - rewrite sq_residuals_pairs. apply qsum_sq_nonneg with (g := fun p => snd p - (_ + _ * fst p)).
  - intros p Hp. rewrite (Hline p Hp). ring.
Qed.

Lemma qsum_perm l l' : Permutation l l' -> qsum l == qsum l'.
Proof.
  induction 1 as [| x l l' _ IH | x y l | l l' l'' _ IH1 _ IH2]; cbn [qsum fold_right].
  - reflexivity.
  - fold (qsum l) (qsum l'). now rewrite IH.
  - ring.
  - now rewrite IH1.
Qed.

Lemma qsum_ext (A : Type) (f g : A -> Q) l :
  (forall x, f x == g x) -> qsum (map f l) == qsum (map g l).
Proof.
  intros H. induction l as [|x l IH]; cbn [map qsum fold_right]; [reflexivity|].
  fold (qsum (map f l)) (qsum (map g l)). now rewrite IH, H.
Qed.

(** The fitted line does not depend on the order of the data. *)
Lemma fit_perm (ps ps' : list (Q * Q)) :
  Permutation ps ps' ->
  coef_ (LinearRegression_fit (map fst ps) (map snd ps))
  == coef_ (LinearRegression_fit (map fst ps') (map snd ps')) /\
  intercept_ (LinearRegression_fit (map fst ps) (map snd ps))
  == intercept_ (LinearRegression_fit (map fst ps') (map snd ps')).
Proof.
  intros Hp. unfold LinearRegression_fit. cbn [coef_ intercept_].
  assert (Hx : mean (map fst ps) == mean (map fst ps')).
  { unfold mean. rewrite !length_map, (Permutation_length Hp).
    now rewrite (qsum_perm (Permutation_map fst Hp)). }
  assert (Hy : mean (map snd ps) == mean (map snd ps')).
  { unfold mean. rewrite !length_map, (Permutation_length Hp).
    now rewrite (qsum_perm (Permutation_map snd Hp)). }
  set (xm := mean (map fst ps)) in *. set (xm' := mean (map fst ps')) in *.
  set (ym := mean (map snd ps)) in *. set (ym' := mean (map snd ps')) in *.
  assert (Hxx : centred_sq xm (map fst ps) == centred_sq xm' (map fst ps')).
  { rewrite !centred_sq_pairs.
    rewrite (qsum_perm (Permutation_map (fun p => (fst p - xm) * (fst p - xm)) Hp)).
    apply qsum_ext. intros p. now rewrite Hx. }
  assert (Hxy : centred_cross xm ym (map fst ps) (map snd ps)
                == centred_cross xm' ym' (map fst ps') (map snd ps')).
  { rewrite !centred_cross_pairs.
    rewrite (qsum_perm (Permutation_map (fun p => (fst p - xm) * (snd p - ym)) Hp)).
    apply qsum_ext. intros p. now rewrite Hx, Hy. }
  clearbody xm xm' ym ym'.
  rewrite (Qeqb_comp _ _ Hxx 0 0 (Qeq_refl 0)).
  destruct (Qeq_bool (centred_sq xm' (map fst ps')) 0).
  - split; [reflexivity | now rewrite Hx, Hy].
  - split; [now rewrite Hxx, Hxy | now rewrite Hxx, Hxy, Hx, Hy].
Qed.

End LineFacts.

Section Regression.

Import Csv App Log LineFacts.
Local Open Scope string_scope.
Local Open Scope list_scope.

(** X8.  When the rows of the log lie on a line, stress_level = a + b *
    study_hours on every row, with at least two distinct study_hours values,
    the predicted stress is that line at 10 hours, a + 10 b; in particular a
    stress level that is the same on every row is predicted unchanged. *)
Theorem prediction_recovers_exact_line :
  forall (df : DataFrame) (o1 o2 : Observation) (a b : Q),
    In o1 df -> In o2 df ->
    ~ (Py.float_val (study_hours o1) == Py.float_val (study_hours o2))%Q ->
    (forall o, In o df ->
               (inject_Z (stress_level o) == a + b * Py.float_val (study_hours o))%Q) ->
    (pred_stress df == a + b * 10)%Q /\
    (b == 0 -> pred_stress df == inject_Z (stress_level o1))%Q.
Proof.
  intros df o1 o2 a b H1 H2 Hne Hline.
  set (pair_of := fun o : Observation =>
                    (Py.float_val (study_hours o), inject_Z (stress_level o))).
  assert (Hfit : (pred_stress df ==
                  Sklearn.linear_predict
                    (Sklearn.LinearRegression_fit (map fst (map pair_of df))
                       (map snd (map pair_of df))) 10)%Q).
  { unfold pred_stress. now rewrite !map_map. }
  destruct (@fit_exact (map pair_of df) (pair_of o1) (pair_of o2) a b) as [Ha Hb].
  - now apply in_map.
  - now apply in_map.
  - exact Hne.
  - intros p Hp. apply in_map_iff in Hp as (o & <- & Ho). cbn [fst snd pair_of].
    now apply Hline.
  - assert (Hpred : (pred_stress df == a + b * 10)%Q).
    { rewrite Hfit. unfold Sklearn.linear_predict. rewrite <- Ha, <- Hb. ring. }
    split; [exact Hpred|].
    intros Hb0. rewrite Hpred, (Hline o1 H1), Hb0. ring.
Qed.

(** X9.  With exactly two rows of different study_hours, the predicted
    stress is the straight line through the two days continued to 10 hours:
    y1 + (y2 - y1) / (x2 - x1) * (10 - x1).  Nothing keeps it within the 1-10
    scale of the slider. *)
Theorem two_row_prediction :
  forall o1 o2 : Observation,
    let x1 := Py.float_val (study_hours o1) in
    let x2 := Py.float_val (study_hours o2) in
    let y1 := inject_Z (stress_level o1) in
    let y2 := inject_Z (stress_level o2) in
    ~ (x1 == x2)%Q ->
    (pred_stress [o1; o2] == y1 + (y2 - y1) / (x2 - x1) * (10 - x1))%Q.
Proof.
  intros o1 o2 x1 x2 y1 y2 Hne.
  set (pair_of := fun o : Observation =>
                    (Py.float_val (study_hours o), inject_Z (stress_level o))).
  assert (Hd : ~ (x2 - x1 == 0)%Q) by (intros E; apply Hne; lra).
  destruct (@fit_exact (map pair_of [o1; o2]) (pair_of o1) (pair_of o2)
              (y1 - (y2 - y1) / (x2 - x1) * x1)%Q ((y2 - y1) / (x2 - x1))%Q)
    as [Ha Hb].
  - cbn. auto.
  - cbn. auto.
  - exact Hne.
  - intros p [<- | [<- | []]]; cbn [fst snd pair_of]; fold x1 x2 y1 y2.
    + ring.
    + field. exact Hd.
  - cbn [map fst snd pair_of] in Ha, Hb.
    unfold pred_stress, Sklearn.linear_predict. cbn [map].
    unfold x1, x2, y1, y2 in *. rewrite <- Ha, <- Hb. ring.
Qed.

(** X10.  The predicted stress does not depend on the order of the rows of
    the log. *)
Theorem prediction_ignores_row_order :
  forall df df' : DataFrame,
    Permutation df df' -> (pred_stress df == pred_stress df')%Q.
Proof.
  intros df df' Hp.
  set (pair_of := fun o : Observation =>
                    (Py.float_val (study_hours o), inject_Z (stress_level o))).
  assert (Hfit : forall d, pred_stress d =
                 Sklearn.linear_predict
                   (Sklearn.LinearRegression_fit (map fst (map pair_of d))
                      (map snd (map pair_of d))) 10%Q).
  { intros d. unfold pred_stress. now rewrite !map_map. }
  rewrite !Hfit. unfold Sklearn.linear_predict.
  destruct (fit_perm (Permutation_map pair_of Hp)) as [Hc Hi].
  now rewrite Hc, Hi.
Qed.

End Regression.

Module GrownTreeFacts.

Import Sklearn Log TreeFacts.

(** *** The two classes *)

Lemma unique_binary (y : list Z) :
  (forall r, In r y -> r = 0 \/ r = 1) -> In 0 y -> In 1 y -> unique y = [0; 1].
Proof.
  intros Hbin H0 H1. unfold unique.
  pose proof (NoDup_nodup Z.eq_dec y) as Hnd.
  assert (Hb : forall r, In r (nodup Z.eq_dec y) -> r = 0 \/ r = 1)
    by (intros r Hr; apply Hbin; now apply (nodup_In Z.eq_dec)).
  apply (nodup_In Z.eq_dec) in H0, H1.
  destruct (nodup Z.eq_dec y) as [|a [|b [|c l]]].
  - contradiction.
  - cbn in H0, H1. lia.
  - destruct (Hb a) as [-> | ->], (Hb b) as [-> | ->]; cbn; auto;
      try reflexivity; inversion Hnd as [|? ? Hn _]; subst; cbn in Hn; tauto.
  - exfalso.
    inversion Hnd as [|? ? Ha Hnd']; subst. inversion Hnd' as [|? ? Hb' _]; subst.
    cbn in Ha, Hb'.
    destruct (Hb a) as [-> | ->], (Hb b) as [-> | ->], (Hb c) as [-> | ->];
      cbn; auto; tauto.
Qed.

Lemma two_labels (y : list Z) :
  (forall r, In r y -> r = 0 \/ r = 1) ->
  (1 < List.length (nodup Z.eq_dec y))%nat -> In 0 y /\ In 1 y.
Proof.
  intros Hbin Hlen.
  pose proof (NoDup_nodup Z.eq_dec y) as Hnd.
  assert (Hin : forall r, In r (nodup Z.eq_dec y) -> In r y)
    by (intros r; apply nodup_In).
  destruct (nodup Z.eq_dec y) as [|a [|b l]]; cbn in Hlen; try lia.
  assert (Ha : In a y) by (apply Hin; cbn; auto).
  assert (Hb : In b y) by (apply Hin; cbn; auto).
  inversion Hnd as [|? ? Hn _]; subst. cbn in Hn.
  destruct (Hbin a Ha) as [-> | ->], (Hbin b Hb) as [-> | ->]; tauto.
Qed.

Lemma counts_binary S : class_counts [0; 1] S = [count 0 S; count 1 S].
Proof. reflexivity. Qed.

Lemma count_pos c S s : In s S -> snd s = c -> (1 <= count c S)%nat.
Proof.
  intros Hs Hc. unfold count.
  assert (Hin : In s (filter (fun s => Z.eqb (snd s) c) S))
    by (apply filter_In; split; [assumption | now apply Z.eqb_eq]).
  destruct (filter _ S); [contradiction | cbn; lia].
Qed.

Lemma count_witness c S : (1 <= count c S)%nat -> exists s, In s S /\ snd s = c.
Proof.
  unfold count. intros H.
  destruct (filter (fun s => Z.eqb (snd s) c) S) as [|s l] eqn:E; [cbn in H; lia|].
  assert (Hin : In s (filter (fun s => Z.eqb (snd s) c) S)) by (rewrite E; now left).
  apply filter_In in Hin as [Hs Hc]. exists s. split; [assumption | now apply Z.eqb_eq].
Qed.

Lemma count_total S :
  (forall s, In s S -> snd s = 0 \/ snd s = 1) ->
  (count 0 S + count 1 S = List.length S)%nat.
Proof.
  unfold count. induction S as [|s S IH]; intros Hbin; [reflexivity|].
  cbn [filter]. specialize (IH (fun s' Hs' => Hbin s' (or_intror Hs'))).
  destruct (Hbin s (or_introl eq_refl)) as [E | E]; rewrite E; cbn; lia.
Qed.

(** The class a leaf predicts when one of the two classes is absent from
    it. *)
Lemma pure_leaf S s :
  (forall s, In s S -> snd s = 0 \/ snd s = 1) -> In s S ->
  count 0 S = 0%nat \/ count 1 S = 0%nat ->
  nth (argmax (class_counts [0; 1] S)) [0; 1] 0 = snd s.
Proof.
  intros Hbin Hs Hpure. rewrite counts_binary.
  destruct (Hbin s Hs) as [E | E]; rewrite E.
  - pose proof (count_pos S s Hs E) as Hpos.
    destruct Hpure as [H0 | H1]; [lia|]. rewrite H1.
    cbn [argmax argmax_from]. replace (count 0 S <? 0)%nat with false; [reflexivity|].
    symmetry. apply Nat.ltb_ge. lia.
  - pose proof (count_pos S s Hs E) as Hpos.
    destruct Hpure as [H0 | H1]; [|lia]. rewrite H0.
    cbn [argmax argmax_from]. replace (0 <? count 1 S)%nat with true; [reflexivity|].
    symmetry. apply Nat.ltb_lt. lia.
Qed.

(** *** Impurity against the leaf test *)

Local Open Scope Q_scope.

Lemma qnat_add n m : qnat (n + m) == qnat n + qnat m.
Proof.
  unfold qnat. rewrite Nat2Z.inj_add, inject_Z_plus. reflexivity.
Qed.

Lemma qnat_le n m : (n <= m)%nat -> qnat n <= qnat m.
Proof.
  intros H. unfold qnat. rewrite <- Zle_Qle. lia.
Qed.

Lemma gini_binary n0 n1 :
  gini [n0; n1] ==
  1 - (qnat n0 / (qnat n0 + qnat n1) * (qnat n0 / (qnat n0 + qnat n1))
       + qnat n1 / (qnat n0 + qnat n1) * (qnat n1 / (qnat n0 + qnat n1))).
Proof.
  unfold gini. cbn [total fold_right map qsum].
  rewrite Nat.add_0_r, qnat_add. ring.
Qed.

(** A node that holds both classes, and fewer than 2^26 samples, is not a
    leaf by impurity. *)
Lemma impure_not_leaf n0 n1 :
  (1 <= n0)%nat -> (1 <= n1)%nat -> (Z.of_nat (n0 + n1) <= 67108864)%Z ->
  Qle_bool (gini [n0; n1]) EPSILON = false.
Proof.
  intros H0 H1 Hn.
  destruct (Qle_bool (gini [n0; n1]) EPSILON) eqn:E; [|reflexivity].
  exfalso. apply Qle_bool_iff in E. rewrite gini_binary in E.
  pose proof (qnat_le H0) as Ha. pose proof (qnat_le H1) as Hb.
  assert (Hab : qnat (n0 + n1) <= inject_Z 67108864)
    by (unfold qnat; now rewrite <- Zle_Qle).
  change (inject_Z 67108864) with 67108864 in Hab.
  rewrite qnat_add in Hab.
  change (qnat 1) with 1 in Ha, Hb.
  set (a := qnat n0) in *. set (b := qnat n1) in *. clearbody a b.
  assert (Hpos : 0 < a + b) by lra.
  assert (Hg : 1 - (a / (a + b) * (a / (a + b)) + b / (a + b) * (b / (a + b)))
               == 2 * a * b / ((a + b) * (a + b))) by (field; lra).
  rewrite Hg in E.
  assert (He : EPSILON == 1 # 4503599627370496) by reflexivity.
  rewrite He in E.
  assert (Hsq : 0 < (a + b) * (a + b)) by nra.
  apply (Qmult_le_r _ _ _ Hsq) in E.
  assert (Hl : 2 * a * b / ((a + b) * (a + b)) * ((a + b) * (a + b)) == 2 * a * b)
    by (field; lra).
  rewrite Hl in E.
  assert (H2 : a + b <= 2 * a * b) by nra.
  assert (H3 : (a + b) * (a + b) <= 67108864 * (a + b)) by nra.
  generalize dependent ((a + b) * (a + b)). generalize dependent (2 * a * b).
  intros t H2 s E _ _ _ H3. lra.
Qed.

Lemma pure_is_leaf n0 n1 :
  (2 <= n0 + n1)%nat -> n0 = 0%nat \/ n1 = 0%nat ->
  Qle_bool (gini [n0; n1]) EPSILON = true.
Proof.
  intros Hn Hpure. apply Qle_bool_iff. rewrite gini_binary.
  assert (Hz : qnat 0 == 0) by reflexivity.
  destruct Hpure as [-> | ->]; rewrite Hz.
  - assert (Hb : 1 <= qnat n1) by (apply (@qnat_le 1 n1); lia).
    assert (Hg : 1 - (0 / (0 + qnat n1) * (0 / (0 + qnat n1))
                      + qnat n1 / (0 + qnat n1) * (qnat n1 / (0 + qnat n1))) == 0)
      by (field; lra).
    rewrite Hg. unfold EPSILON. discriminate.
  - assert (Ha : 1 <= qnat n0) by (apply (@qnat_le 1 n0); lia).
    assert (Hg : 1 - (qnat n0 / (qnat n0 + 0) * (qnat n0 / (qnat n0 + 0))
                      + 0 / (qnat n0 + 0) * (0 / (qnat n0 + 0))) == 0)
      by (field; lra).
    rewrite Hg. unfold EPSILON. discriminate.
Qed.

(** *** An impure node has a split *)

Lemma In_insert_Q x a l : In x (insert_Q a l) <-> x = a \/ In x l.
Proof.
  induction l as [|b l IH]; cbn [insert_Q].
  - cbn. intuition.
  - destruct (Qle_bool a b); cbn [In]; [intuition | rewrite IH; cbn; intuition].
Qed.

Lemma In_sort_Q x l : In x (sort_Q l) <-> In x l.
Proof.
  induction l as [|a l IH]; cbn [sort_Q fold_right]; [reflexivity|].
  fold (sort_Q l). rewrite In_insert_Q, IH. cbn. intuition.
Qed.

Lemma insert_Q_sorted a l : Sorted Qle l -> Sorted Qle (insert_Q a l).
Proof.
  induction 1 as [|b l Hs IH Hhd]; cbn [insert_Q].
  - repeat constructor.
  - destruct (Qle_bool a b) eqn:E.
    + apply Qle_bool_iff in E. repeat constructor; assumption.
    + assert (Hba : b <= a).
      { apply Qlt_le_weak, Qnot_le_lt. intros H. apply Qle_bool_iff in H. congruence. }
      constructor; [assumption|].
      destruct l as [|c l]; cbn [insert_Q] in *.
      * now constructor.
      * destruct (Qle_bool a c); constructor; [assumption|].
        now inversion Hhd.
Qed.

Lemma sort_Q_sorted l : Sorted Qle (sort_Q l).
Proof.
  induction l as [|a l IH]; cbn [sort_Q fold_right]; [constructor|].
  now apply insert_Q_sorted.
Qed.

Lemma threshold_pos : 0 < FEATURE_THRESHOLD.
Proof. reflexivity. Qed.

Lemma separated_cases a b :
  separated a b = true ->
  a == b \/ a + FEATURE_THRESHOLD < b \/ b + FEATURE_THRESHOLD < a.
Proof.
  unfold separated. intros H.
  apply orb_true_iff in H as [H | H]; [apply orb_true_iff in H as [H | H]|].
  - left. now apply Qeq_bool_iff.
  - right. left. now apply AnalysisFacts.Qlt_bool_iff.
  - right. right. now apply AnalysisFacts.Qlt_bool_iff.
Qed.

(** Sorted values that are pairwise equal or apart, and not all equal, have
    a midpoint. *)
Lemma midpoints_exist : forall l,
  Sorted Qle l ->
  (forall a b, In a l -> In b l -> separated a b = true) ->
  (exists x y, In x l /\ In y l /\ ~ x == y) ->
  midpoints l <> [].
Proof.
  induction l as [|a l IH]; intros Hs Hsep (x & y & Hx & Hy & Hne); [contradiction|].
  destruct l as [|b l].
  - exfalso. apply Hne. destruct Hx as [<- | []], Hy as [<- | []]. reflexivity.
  - cbn [midpoints].
    destruct (Qle_bool b (a + FEATURE_THRESHOLD)) eqn:E; [|discriminate].
    apply Qle_bool_iff in E.
    inversion Hs as [|? ? Hs' Hhd]; subst. inversion Hhd as [|? ? Hab]; subst.
    pose proof threshold_pos as Ht.
    assert (Heq : a == b).
    { destruct (separated_cases _ _
                  (Hsep a b (or_introl eq_refl) (or_intror (or_introl eq_refl))))
        as [H | [H | H]]; [assumption | lra | lra]. }
    apply IH; [assumption | intros; apply Hsep; now right |].
    assert (Hmove : forall z, In z (a :: b :: l) -> exists z', In z' (b :: l) /\ z == z').
    { intros z [<- | Hz]; [exists b; split; [now left | assumption]|].
      exists z. split; [assumption | reflexivity]. }
    destruct (Hmove x Hx) as (x' & Hx' & Ex), (Hmove y Hy) as (y' & Hy' & Ey).
    exists x', y'. repeat split; try assumption.
    intros H. apply Hne. now rewrite Ex, Ey.
Qed.

(** A midpoint has a value on its left and a value on its right. *)
Lemma midpoint_between : forall l m,
  In m (midpoints l) -> exists a b, In a l /\ In b l /\ a <= m /\ m < b.
Proof.
  induction l as [|a l IH]; intros m Hm; [contradiction|].
  destruct l as [|b l]; [contradiction|]. cbn [midpoints] in Hm.
  pose proof threshold_pos as Ht.
  destruct (Qle_bool b (a + FEATURE_THRESHOLD)) eqn:E.
  - destruct (IH m Hm) as (a' & b' & Ha & Hb & H).
    exists a', b'. repeat split; try tauto; now right.
  - destruct Hm as [<- | Hm].
    + assert (Hab : a + FEATURE_THRESHOLD < b).
      { apply Qnot_le_lt. intros H. apply Qle_bool_iff in H. congruence. }
      exists a, b. split; [now left|]. split; [right; now left|].
      assert (Hhalf : a / 2 + b / 2 == (1 # 2) * a + (1 # 2) * b) by field.
      rewrite Hhalf. split; lra.
    + destruct (IH m Hm) as (a' & b' & Ha & Hb & H).
      exists a', b'. repeat split; try tauto; now right.
Qed.

Lemma candidates_exist f S :
  (forall s s', In s S -> In s' S -> separated (feat f s) (feat f s') = true) ->
  (exists s s', In s S /\ In s' S /\ ~ feat f s == feat f s') ->
  candidates f S <> [].
Proof.
  intros Hsep (s & s' & Hs & Hs' & Hne).
  assert (Hmid : midpoints (sort_Q (map (feat f) S)) <> []).
  { apply midpoints_exist.
    - apply sort_Q_sorted.
    - intros a b Ha Hb. apply In_sort_Q, in_map_iff in Ha as (sa & <- & Hsa).
      apply In_sort_Q, in_map_iff in Hb as (sb & <- & Hsb). now apply Hsep.
    - exists (feat f s), (feat f s').
      repeat split; try assumption; apply In_sort_Q; now apply in_map. }
  destruct (midpoints (sort_Q (map (feat f) S))) as [|m ms] eqn:E; [congruence|].
  destruct (@midpoint_between (sort_Q (map (feat f) S)) m) as (a & b & Ha & Hb & Ham & Hmb).
  { rewrite E. now left. }
  apply In_sort_Q, in_map_iff in Ha as (sa & <- & Hsa).
  apply In_sort_Q, in_map_iff in Hb as (sb & <- & Hsb).
  assert (Hc : In (f, m) (candidates f S)).
  { unfold candidates. rewrite E. apply filter_In. split; [now left|].
    cbn [fst snd]. apply andb_true_iff. split; apply Nat.leb_le.
    - assert (Hin : In sa (left_part f m S)).
      { apply filter_In. split; [assumption|]. unfold goes_left.
        now apply Qle_bool_iff. }
      destruct (left_part f m S); [contradiction | cbn; lia].
    - assert (Hin : In sb (right_part f m S)).
      { apply filter_In. split; [assumption|]. unfold goes_left.
        apply negb_true_iff. destruct (Qle_bool (nth f (fst sb) 0) m) eqn:El; [|reflexivity].
        apply Qle_bool_iff in El. unfold feat in Hmb. lra. }
      destruct (right_part f m S); [contradiction | cbn; lia]. }
  intros Hnil. now rewrite Hnil in Hc.
Qed.

Lemma best_of_some score cs : forall b, best_of score (Some b) cs <> None.
Proof.
  induction cs as [|c cs IH]; intros b; cbn [best_of]; [discriminate|].
  destruct (Qlt_bool (score b) (score c)); apply IH.
Qed.

Lemma node_split_exists order classes S f :
  In f order -> candidates f S <> [] -> node_split order classes S <> None.
Proof.
  intros Hf Hc. unfold node_split.
  destruct (flat_map (fun f => candidates f S) order) as [|c cs] eqn:E.
  - exfalso. destruct (candidates f S) as [|c cs] eqn:Ec; [congruence|].
    assert (Hin : In c (flat_map (fun f => candidates f S) order)).
    { apply in_flat_map. exists f. split; [assumption|]. rewrite Ec. now left. }
    now rewrite E in Hin.
  - cbn [best_of]. apply best_of_some.
Qed.

(** *** The grown tree classifies its training samples *)

Section Grown.

Variable draw : list sample -> list nat.
Hypothesis draw_all : forall S, Permutation (draw S) [0; 1; 2]%nat.

Variable S0 : list sample.
Hypothesis binary : forall s, In s S0 -> snd s = 0%Z \/ snd s = 1%Z.
Hypothesis functional :
  forall s s', In s S0 -> In s' S0 ->
               (forall f, (f < 3)%nat -> feat f s == feat f s') -> snd s = snd s'.
Hypothesis apart :
  forall s s' f, In s S0 -> In s' S0 -> (f < 3)%nat ->
                 separated (feat f s) (feat f s') = true.
Hypothesis small : (Z.of_nat (List.length S0) <= 67108864)%Z.

Lemma impure_has_split S :
  incl S S0 -> (1 <= count 0 S)%nat -> (1 <= count 1 S)%nat ->
  node_split (draw S) [0; 1]%Z S <> None.
Proof using draw_all functional apart.
  intros Hincl H0 H1.
  destruct (count_witness 0 S H0) as (s0 & Hs0 & E0).
  destruct (count_witness 1 S H1) as (s1 & Hs1 & E1).
  assert (Hf : exists f, (f < 3)%nat /\ ~ feat f s0 == feat f s1).
  { destruct (Qeq_dec (feat 0 s0) (feat 0 s1)) as [A|A]; [|exists 0%nat; split; [lia | exact A]].
    destruct (Qeq_dec (feat 1 s0) (feat 1 s1)) as [B|B]; [|exists 1%nat; split; [lia | exact B]].
    destruct (Qeq_dec (feat 2 s0) (feat 2 s1)) as [C|C]; [|exists 2%nat; split; [lia | exact C]].
    exfalso.
    assert (E : snd s0 = snd s1).
    { apply functional; auto.
      intros f Hlt. destruct f as [|[|[|f]]]; [assumption.. | lia]. }
    congruence. }
  destruct Hf as (f & Hlt & Hne).
  apply (@node_split_exists (draw S) [0; 1]%Z S f).
  - apply (Permutation_in f (Permutation_sym (draw_all S))).
    destruct f as [|[|[|f]]]; cbn; auto; lia.
  - apply candidates_exist.
    + intros s s' Hs Hs'. apply apart; auto.
    + exists s0, s1. auto.
Qed.

Lemma leaf_test S :
  incl S S0 -> (List.length S <= List.length S0)%nat ->
  let leaf := (List.length S <? 2)%nat
              || Qle_bool (gini (class_counts [0; 1]%Z S)) EPSILON in
  (leaf = true -> count 0 S = 0%nat \/ count 1 S = 0%nat) /\
  (leaf = false -> (1 <= count 0 S)%nat /\ (1 <= count 1 S)%nat).
Proof using binary small.
  intros Hincl Hlen leaf. subst leaf.
  assert (Htot : (count 0 S + count 1 S = List.length S)%nat)
    by (apply count_total; auto).
  rewrite counts_binary. split.
  - intros H. apply orb_true_iff in H as [H | H].
    + apply Nat.ltb_lt in H. lia.
    + destruct (count 0 S) as [|n0] eqn:E0; [now left|].
      destruct (count 1 S) as [|n1] eqn:E1; [now right|].
      rewrite impure_not_leaf in H; [discriminate | lia | lia | lia].
  - intros H. apply orb_false_iff in H as [Hl Hg]. apply Nat.ltb_ge in Hl.
    destruct (count 0 S) as [|n0] eqn:E0.
    + rewrite pure_is_leaf in Hg; [discriminate | lia | now left].
    + destruct (count 1 S) as [|n1] eqn:E1; [|lia].
      rewrite pure_is_leaf in Hg; [discriminate | lia | now right].
Qed.

(** Every training sample that reaches a node of the grown tree is given
    its own label. *)
Lemma grown_consistent : forall fuel S t,
  incl S S0 -> (List.length S <= List.length S0)%nat ->
  build draw fuel [0; 1]%Z S = Some t ->
  forall s, In s S -> nth (argmax (apply_tree t (fst s))) [0; 1]%Z 0%Z = snd s.
Proof using All.
  assert (Hleaf : forall S s,
             incl S S0 -> (List.length S <= List.length S0)%nat ->
             count 0 S = 0%nat \/ count 1 S = 0%nat -> In s S ->
             nth (argmax (apply_tree (Leaf (class_counts [0; 1]%Z S)) (fst s))) [0; 1]%Z 0%Z
             = snd s).
  { intros S s Hincl Hlen Hpure Hs. cbn [apply_tree]. apply pure_leaf; auto. }
  induction fuel as [|fuel IH]; intros S t Hincl Hlen Hb s Hs.
  - cbn [build] in Hb.
    destruct (leaf_test Hincl Hlen) as [Htrue Hfalse].
    destruct ((List.length S <? 2)%nat || Qle_bool _ EPSILON).
    + injection Hb as <-. apply Hleaf; auto.
    + destruct (Hfalse eq_refl) as [H0 H1].
      pose proof (impure_has_split Hincl H0 H1) as Hsplit.
      destruct (node_split (draw S) [0; 1]%Z S) as [[f thr]|]; [discriminate | congruence].
  - rewrite AnalysisFacts.build_step in Hb.
    destruct (leaf_test Hincl Hlen) as [Htrue Hfalse].
    destruct ((List.length S <? 2)%nat || Qle_bool _ EPSILON).
    + injection Hb as <-. apply Hleaf; auto.
    + destruct (Hfalse eq_refl) as [H0 H1].
      pose proof (impure_has_split Hincl H0 H1) as Hsplit.
      destruct (node_split (draw S) [0; 1]%Z S) as [[f thr]|]; [|congruence].
      destruct (build draw fuel [0; 1]%Z (left_part f thr S)) as [l|] eqn:El; [|discriminate].
      destruct (build draw fuel [0; 1]%Z (right_part f thr S)) as [r|] eqn:Er; [|discriminate].
      injection Hb as <-. cbn [apply_tree].
      pose proof (parts_length f thr S) as Hparts.
      destruct (goes_left f thr (fst s)) eqn:Hgo.
      * apply (IH (left_part f thr S) l); auto.
        -- intros x Hx. apply Hincl. now apply filter_In in Hx.
        -- lia.
        -- apply filter_In. now split.
      * apply (IH (right_part f thr S) r); auto.
        -- intros x Hx. apply Hincl. now apply filter_In in Hx.
        -- lia.
        -- apply filter_In. split; [assumption | now rewrite Hgo].
Qed.

End Grown.

End GrownTreeFacts.

Module BurnoutFacts.

Import Csv App Log Sklearn TreeFacts AnalysisFacts GrownTreeFacts.
Local Open Scope list_scope.

Lemma combine_map (A B C : Type) (f : A -> B) (g : A -> C) (l : list A) :
  combine (map f l) (map g l) = map (fun x => (f x, g x)) l.
Proof.
  induction l as [|x l IH]; cbn [map combine]; [reflexivity | now rewrite IH].
Qed.

Lemma burnout_rule_proper a a' b b' :
  (a == a')%Q -> (b == b')%Q -> burnout_rule a b = burnout_rule a' b'.
Proof.
  intros Ha Hb. unfold burnout_rule, Qlt_bool. now rewrite Ha, Hb.
Qed.

Lemma samples_of df : combine (X_tree df) (burnout_risk df) = map labelled df.
Proof.
  unfold X_tree, burnout_risk. apply combine_map.
Qed.

(** The fitted tree gives every row of the log the label of the rule. *)
Lemma fit_consistent draw df m :
  (forall S, Permutation (draw S) [0; 1; 2]%nat) ->
  well_separated df = true ->
  Z.of_nat (List.length df) <= 67108864 ->
  In 0 (burnout_risk df) -> In 1 (burnout_risk df) ->
  DecisionTreeClassifier_fit draw (X_tree df) (burnout_risk df) = Some m ->
  forall o, In o df ->
            tree_predict m (features o) =
            burnout_rule (Py.float_val (sleep_hours o)) (inject_Z (stress_level o)).
Proof.
  intros Hdraw Hsep Hsmall H0 H1 Hfit o Ho.
  unfold DecisionTreeClassifier_fit in Hfit.
  rewrite (@unique_binary (burnout_risk df) (@burnout_risk_binary df) H0 H1) in Hfit.
  rewrite samples_of in Hfit.
  match type of Hfit with
  | match ?b with _ => _ end = _ => destruct b as [t|] eqn:Hb; [|discriminate Hfit]
  end.
  injection Hfit as <-. unfold tree_predict. cbn [classes_ tree_].
  apply (@grown_consistent draw Hdraw (map labelled df)) with (s := labelled o) in Hb.
  - exact Hb.
  - intros s Hs. apply in_map_iff in Hs as (o' & <- & _). apply burnout_rule_binary.
  - intros s s' Hs Hs' Hfeat.
    apply in_map_iff in Hs as (o1 & <- & _). apply in_map_iff in Hs' as (o2 & <- & _).
    cbn [labelled snd]. apply burnout_rule_proper.
    + apply (Hfeat 0%nat). lia.
    + apply (Hfeat 1%nat). lia.
  - intros s s' f Hs Hs' Hf.
    apply in_map_iff in Hs as (o1 & <- & Ho1). apply in_map_iff in Hs' as (o2 & <- & Ho2).
    unfold well_separated in Hsep.
    rewrite forallb_forall in Hsep. specialize (Hsep o1 Ho1).
    rewrite forallb_forall in Hsep. specialize (Hsep o2 Ho2).
    rewrite forallb_forall in Hsep. apply Hsep.
    destruct f as [|[|[|f]]]; cbn; auto; lia.
  - now rewrite length_map.
  - apply incl_refl.
  - lia.
  - now apply in_map.
Qed.

(** With both labels in the log, line 83 returns the label of the rule for
    widget values that are those of a logged row. *)
Lemma risk_today_logged draw w df o :
  (forall S, Permutation (draw S) [0; 1; 2]%nat) ->
  well_separated df = true ->
  Z.of_nat (List.length df) <= 67108864 ->
  In 0 (burnout_risk df) -> In 1 (burnout_risk df) ->
  In o df ->
  w_sleep_hours w = sleep_hours o ->
  w_stress_level w = stress_level o ->
  w_study_hours w = study_hours o ->
  (2 <= List.length df)%nat /\
  forall world,
    risk_today draw w df world =
    (Done (Some (burnout_rule (Py.float_val (w_sleep_hours w))
                   (inject_Z (w_stress_level w)))), world).
Proof.
  intros Hdraw Hsep Hsmall H0 H1 Ho Esleep Estress Estudy.
  destruct (risk_today_value draw w df) as (risk & Hrun & Hnone & Hsome).
  assert (Hlen : (2 <= List.length df)%nat).
  { destruct (Nat.lt_ge_cases (List.length df) 2) as [Hlt | Hge]; [|assumption].
    exfalso.
    assert (E : 0 = 1); [|discriminate E].
    apply (@short_list_same (burnout_risk df)); auto.
    unfold burnout_risk. now rewrite length_map. }
  split; [exact Hlen|].
  destruct risk as [r|].
  - destruct (Hsome r eq_refl) as (_ & m & Hm & Er).
    assert (E : r = burnout_rule (Py.float_val (w_sleep_hours w))
                      (inject_Z (w_stress_level w))).
    { rewrite Er.
      change [Py.float_val (w_sleep_hours w); inject_Z (w_stress_level w);
              Py.float_val (w_study_hours w)] with (today_features w).
      assert (Ef : today_features w = features o)
        by (unfold today_features, features; now rewrite Esleep, Estress, Estudy).
      rewrite Ef, Esleep, Estress.
      now apply (@fit_consistent draw df m). }
    rewrite <- E. exact Hrun.
  - exfalso. assert (E : 0 = 1); [|discriminate E].
    now apply (proj1 Hnone eq_refl).
Qed.

End BurnoutFacts.

Section Burnout.

Import Csv App Log AnalysisFacts BurnoutFacts.
Local Open Scope string_scope.
Local Open Scope list_scope.

Variable draw : list Sklearn.sample -> list nat.


End Burnout.

Module PageFacts.

Import Csv App Log CellFacts CsvFacts AppFacts AnalysisFacts LogFacts RunFacts.
Local Open Scope string_scope.
Local Open Scope list_scope.

(** The page after the daily input tab. *)
Lemma tab1_page today w df world :
  exists world',
    tab1 today w df world =
    (Done (if w_submitted w then df ++ [new_data today w] else df), world') /\
    screen world' =
    screen world ++ st_header "Daily Input" ::
      (if w_submitted w then [st_success "Data saved! Check Analysis tab for insights."]
       else []).
Proof.
  unfold tab1. destruct (w_submitted w); eexists; (split; [reflexivity|]);
    cbn [screen]; now rewrite <- ?app_assoc.
Qed.

Section Run.

Variable draw : list Sklearn.sample -> list nat.
Variable generator : string -> string + exn.
Variable progress_of : Py.date -> list string -> Z -> Q + exn.
Variable savefig : list string -> list Z -> string.
Variable canvas_save : nat -> string -> string.

(** The plan tab only adds to the page, also when it raises. *)
Lemma tab3_page today w df world :
  exists tail,
    screen (snd (tab3 generator progress_of today w df world)) = screen world ++ tail.
Proof.
  unfold tab3, bind, emit.
  destruct (w_generate_plan w); [|eexists; reflexivity].
  destruct (generator (prompt w)) as [tips | e]; cbn [lift ret raise snd screen];
    [|eexists; reflexivity].
  destruct (0 <? List.length (rows df))%nat; cbn [snd screen].
  - destruct (progress_of today (map date (rows df)) (w_days_left w)) as [p | e];
      cbn [lift ret raise snd screen]; repeat rewrite <- app_assoc;
      eexists; reflexivity.
  - repeat rewrite <- app_assoc. eexists; reflexivity.
Qed.

(** What the first two tabs put on the page stays on it to the end of the
    run, whether the run completes or not. *)
Lemma run_page today w world df w1 :
  load world = (Done df, w1) ->
  exists w2 adf w3 tail,
    tab1 today w df w1 =
    (Done (if w_submitted w then df ++ [new_data today w] else df), w2) /\
    tab2 draw w (if w_submitted w then df ++ [new_data today w] else df) w2
    = (Done adf, w3) /\
    screen (snd (run draw generator progress_of savefig canvas_save today w world))
    = screen w3 ++ tail.
Proof.
  intros Hload.
  destruct (tab1_page today w df w1) as (w2 & Htab1 & _).
  destruct (tab2_result draw w (if w_submitted w then df ++ [new_data today w] else df) w2)
    as (adf & w3 & Htab2 & _).
  destruct (tab3_page today w adf w3) as (tail & Htail).
  assert (Hrun : run draw generator progress_of savefig canvas_save today w world
                 = bind (tab3 generator progress_of today w adf)
                        (fun _ => tab4 savefig canvas_save w adf) w3).
  { unfold run. unfold bind at 1. rewrite Hload.
    unfold bind at 1. rewrite Htab1.
    unfold bind at 1.
    match goal with
    | |- context [tab2 draw w ?d w2] =>
        change (tab2 draw w d w2)
          with (tab2 draw w (if w_submitted w then df ++ [new_data today w] else df) w2)
    end.
    rewrite Htab2. reflexivity. }
  exists w2, adf, w3.
  rewrite Hrun. unfold bind.
  destruct (tab3 generator progress_of today w adf w3) as [[[] | e |] w4];
    cbn [snd] in Htail |- *.
  - exists (tail ++ [st_header "Export Report as PDF"]).
    split; [exact Htab1|]. split; [exact Htab2|].
    rewrite tab4_result. cbn [snd screen]. now rewrite Htail, <- app_assoc.
  - exists tail. now repeat split.
  - exists tail. now repeat split.
Qed.

(** The page after the analysis tab, read off its result. *)
Lemma tab2_page w df world adf world' :
  tab2 draw w df world = (Done adf, world') ->
  ((List.length df < 2)%nat ->
   screen world' =
   screen world ++
   [st_header "Analysis & Insights";
    st_warning "Enter at least 2 days of data for analysis."]) /\
  ((2 <= List.length df)%nat ->
   forall risk, (forall w0, risk_today draw w df w0 = (Done risk, w0)) ->
     screen world' =
     screen world ++
     [st_header "Analysis & Insights"; st_write_pred_stress (pred_stress df)] ++
     match risk with
     | Some r => [st_write (burnout_message r)]
     | None => []
     end ++
     [st_plotly_chart (px_line (map date df) (map stress_level df) "Stress Over Time");
      st_plotly_chart
        (px_scatter_ols (map (fun o => Py.float_val (study_hours o)) df)
           (map stress_level df) "Stress vs Study Hours")]).
Proof.
  intros H. split.
  - intros Hlt. rewrite (@tab2_short draw w df world Hlt) in H.
    injection H as _ <-. reflexivity.
  - intros Hge risk Hrun. rewrite (@tab2_long draw w df world risk Hge Hrun) in H.
    injection H as _ <-. reflexivity.
Qed.

End Run.

End PageFacts.

Section Page.

Import Csv App Log CellFacts CsvFacts AppFacts AnalysisFacts LogFacts RunFacts.
Import BurnoutFacts PageFacts.
Local Open Scope string_scope.
Local Open Scope list_scope.

Variable draw : list Sklearn.sample -> list nat.
Variable generator : string -> string + exn.
Variable progress_of : Py.date -> list string -> Z -> Q + exn.
Variable savefig : list string -> list Z -> string.
Variable canvas_save : nat -> string -> string.



End Page.

(* ================================================================= *)
(** * Worked instances of the further properties *)


(** A run, and a session of two submissions, on a data file whose third row
    has a sixth cell. *)
Lemma unreadable_file_stops_every_run_witness :
  App.run App.in_column_order App.fixed_tip App.failing_progress App.fixed_png
    App.fixed_pdf (Py.mkdate 2026 11 4) App.day1_inputs
    (App.mkworld (fun _ => Some App.long_row_file) [])
  = (App.Raised Csv.ParserError, App.mkworld (fun _ => Some App.long_row_file) []) /\
  App.session App.in_column_order App.fixed_tip App.failing_progress App.fixed_png
    App.fixed_pdf
    [(Py.mkdate 2026 11 4, App.day1_inputs); (Py.mkdate 2026 11 5, App.day2_inputs)]
    (fun _ => Some App.long_row_file)
  = (fun _ => Some App.long_row_file).
Proof.
  destruct (@unreadable_file_stops_every_run App.in_column_order App.fixed_tip
              App.failing_progress App.fixed_png App.fixed_pdf (Py.mkdate 2026 11 4)
              App.day1_inputs (fun _ => Some App.long_row_file) [] App.long_row_file
              Csv.ParserError eq_refl eq_refl) as [Hrun Hsession].
  split; [exact Hrun | apply Hsession].
Defined.

(** A run with the export button pressed leaves report.pdf absent. *)
Lemma run_writes_only_data_file_witness :
  App.files
    (snd (App.run App.in_column_order App.fixed_tip App.failing_progress App.fixed_png
            App.fixed_pdf (Py.mkdate 2026 11 4)
            (App.mkwidgets (Py.float_lit "2.0") 3 (Py.float_lit "8.0") 20 true
               "IOQM" 20 "Algebra,Geometry" "Number Theory" false true)
            (App.mkworld (fun _ => None) [])))
    "report.pdf"%string
  = None.
Proof.
  refine (@run_writes_only_data_file App.in_column_order App.fixed_tip
            App.failing_progress App.fixed_png App.fixed_pdf (Py.mkdate 2026 11 4)
            (App.mkwidgets (Py.float_lit "2.0") 3 (Py.float_lit "8.0") 20 true
               "IOQM" 20 "Algebra,Geometry" "Number Theory" false true)
            (App.mkworld (fun _ => None) []) "report.pdf"%string _).
  intros E. discriminate E.
Defined.


(** The plan of a 3-day count: three empty phases and one of three days. *)
Lemma plan_covers_each_day_once_witness :
  map Log.phase_range (App.spec_phases 3) = [[]; []; []; [1; 2; 3]] /\
  map (fun b => App.days (fst b) (snd b)) (App.spec_phases 3)
  = ["Days 1-0: "; "Days 1-0: "; "Days 1-0: "; "Days 1-3: "]%string.
Proof.
  refine (proj1 (proj2 (proj2 (proj2 (proj2
            (@plan_covers_each_day_once
               (App.mkwidgets (Py.float_lit "2.0") 3 (Py.float_lit "8.0") 20 false
                  "IOQM" 3 "Algebra,Geometry" "Number Theory" true false)
               _))))) _).
  - cbn. lia.
  - cbn. lia.
Defined.

(** Two submissions of different widget values on the same day. *)
Lemma date_identifies_day_witness :
  Csv.date (App.new_data (Py.mkdate 2026 11 4) App.day1_inputs)
  = Csv.date (App.new_data (Py.mkdate 2026 11 4) App.day2_inputs).
Proof.
  refine (proj2 (@date_identifies_day (Py.mkdate 2026 11 4) (Py.mkdate 2026 11 4)
                   App.day1_inputs App.day2_inputs _ _) eq_refl); reflexivity.
Defined.

(** Three days of the same stress level 5: the prediction is 5. *)
Lemma prediction_recovers_exact_line_witness :
  (App.pred_stress
     [Csv.mkobs "2026-11-02" (Py.float_lit "2.0") 5 (Py.float_lit "8.0") 20;
      Csv.mkobs "2026-11-03" (Py.float_lit "4.5") 5 (Py.float_lit "7.0") 0;
      Csv.mkobs "2026-11-04" (Py.float_lit "8.0") 5 (Py.float_lit "4.0") 0]
   == 5)%Q.
Proof.
  refine (proj2 (@prediction_recovers_exact_line
                   [Csv.mkobs "2026-11-02" (Py.float_lit "2.0") 5 (Py.float_lit "8.0") 20;
                    Csv.mkobs "2026-11-03" (Py.float_lit "4.5") 5 (Py.float_lit "7.0") 0;
                    Csv.mkobs "2026-11-04" (Py.float_lit "8.0") 5 (Py.float_lit "4.0") 0]
                   (Csv.mkobs "2026-11-02" (Py.float_lit "2.0") 5 (Py.float_lit "8.0") 20)
                   (Csv.mkobs "2026-11-03" (Py.float_lit "4.5") 5 (Py.float_lit "7.0") 0)
                   5%Q 0%Q _ _ _ _) _).
  - left. reflexivity.
  - right. left. reflexivity.
  - intros H. vm_compute in H. discriminate H.
  - intros o [<- | [<- | [<- | []]]]; reflexivity.
  - reflexivity.
Defined.

(** On the scenario log (2 hours at stress 3, 8 hours at stress 9) the
    prediction for 10 hours is 11, above the scale of the slider. *)
Lemma two_row_prediction_witness :
  (App.pred_stress (App.scenario_log "2026-11-03" "2026-11-04") == 11)%Q.
Proof.
  refine (Qeq_trans _ _ _
            (@two_row_prediction
               (Csv.mkobs "2026-11-03" (Py.float_lit "2.0") 3 (Py.float_lit "8.0") 20)
               (Csv.mkobs "2026-11-04" (Py.float_lit "8.0") 9 (Py.float_lit "4.0") 0) _)
            _).
  - intros H. vm_compute in H. discriminate H.
  - reflexivity.
Defined.

(** The scenario log with its two rows exchanged. *)
Lemma prediction_ignores_row_order_witness :
  (App.pred_stress
     [Csv.mkobs "2026-11-03" (Py.float_lit "2.0") 3 (Py.float_lit "8.0") 20;
      Csv.mkobs "2026-11-04" (Py.float_lit "8.0") 9 (Py.float_lit "4.0") 0]
   == App.pred_stress
        [Csv.mkobs "2026-11-04" (Py.float_lit "8.0") 9 (Py.float_lit "4.0") 0;
         Csv.mkobs "2026-11-03" (Py.float_lit "2.0") 3 (Py.float_lit "8.0") 20])%Q.
Proof.
  refine (@prediction_ignores_row_order _ _ _).
  apply perm_swap.
Defined.



